(** * BinderHub repo providers

    A shallow embedding of [binderhub/repoproviders.py]: spec parsing and
    validation, the per-spec policy ([is_banned], [has_higher_quota],
    [repo_config]), the rate-limit aware GitHub request and the resolvers of
    the Fake, Git, GitLab, GitHub, Gist and Zenodo providers.

    Conventions of the embedding:
    - Python [str] is [string]; a Python value that travels through JSON or
      through configuration is a [value];
    - a function that may raise returns a [result]; the exceptions are the
      constructors of [exn];
    - a coroutine is run to completion: the reply of the HTTP client is given
      by an oracle [fetch], the clock by [now], and the class-level cache,
      the instance and the observable effects are threaded through [State];
    - [time.time()] and the ratio [remaining / rate_limit] are Python floats;
      they are idealised as rationals. *)

From Stdlib Require Import ZArith QArith String Ascii List Lia DecimalString.
From stdpp Require Import gmap strings list.

Set Warnings "-register-all".

Local Open Scope string_scope.

(** ** Python strings *)

Module Py.

(** The character [chr(34)]. *)
Definition dquote : string := String (ascii_of_nat 34) EmptyString.

Fixpoint contains_char (c : ascii) (s : string) : bool :=
  match s with
  | EmptyString => false
  | String a r => if Ascii.eqb a c then true else contains_char c r
  end.

(** [s.partition(sep)] when [sep] occurs: the text before and after the
    first occurrence. *)
Fixpoint cut (sep : ascii) (s : string) : option (string * string) :=
  match s with
  | EmptyString => None
  | String a r =>
      if Ascii.eqb a sep then Some (EmptyString, r)
      else match cut sep r with
           | Some (x, y) => Some (String a x, y)
           | None => None
           end
  end.

(** The same at the last occurrence, as [s.rpartition(sep)]. *)
Fixpoint rcut (sep : ascii) (s : string) : option (string * string) :=
  match s with
  | EmptyString => None
  | String a r =>
      match rcut sep r with
      | Some (x, y) => Some (String a x, y)
      | None => if Ascii.eqb a sep then Some (EmptyString, r) else None
      end
  end.

(** [s.split(sep, maxsplit)] for a one-character separator. *)
Fixpoint split_max (sep : ascii) (maxsplit : nat) (s : string) : list string :=
  match maxsplit with
  | O => [s]
  | S n =>
      match cut sep s with
      | Some (x, y) => x :: split_max sep n y
      | None => [s]
      end
  end.

(** [s.split(sep)]: a string has no more separators than characters. *)
Definition split (sep : ascii) (s : string) : list string :=
  split_max sep (String.length s) s.

(** [s.rsplit(sep, 1)]. *)
Definition rsplit1 (sep : ascii) (s : string) : list string :=
  match rcut sep s with
  | Some (x, y) => [x; y]
  | None => [s]
  end.

(** [text.endswith(suffix)]. *)
Definition endswith (text suffix : string) : bool :=
  let n := String.length text in
  let k := String.length suffix in
  (k <=? n)%nat && String.eqb (String.substring (n - k) k text) suffix.

(** [text[:-k]] for [k >= 0]: [-0] is [0], so [text[:-0]] is empty. *)
Definition slice_to_neg (text : string) (k : nat) : string :=
  match k with
  | O => EmptyString
  | S _ => String.substring 0 (String.length text - k) text
  end.

(** ['%i' % z] and [str(z)] for an integer. *)
Definition string_of_Z (z : Z) : string := NilZero.string_of_int (Z.to_int z).

Definition is_space (a : ascii) : bool :=
  let n := nat_of_ascii a in
  ((9 <=? n) && (n <=? 13))%nat || (n =? 32)%nat.

Fixpoint lstrip (s : string) : string :=
  match s with
  | String a r => if is_space a then lstrip r else s
  | EmptyString => EmptyString
  end.

Fixpoint rstrip (s : string) : string :=
  match s with
  | EmptyString => EmptyString
  | String a r =>
      match rstrip r with
      | EmptyString => if is_space a then EmptyString else String a EmptyString
      | r' => String a r'
      end
  end.

Definition digit_of (a : ascii) : option Z :=
  let n := nat_of_ascii a in
  if ((48 <=? n) && (n <=? 57))%nat then Some (Z.of_nat (n - 48)) else None.

(** The digits of a literal, most significant first; a single underscore
    may separate two digits. [after_digit] tells whether the previous
    character was a digit. *)
Fixpoint int_digits (s : string) (acc : Z) (after_digit : bool) : option Z :=
  match s with
  | EmptyString => if after_digit then Some acc else None
  | String a r =>
      match digit_of a with
      | Some d => int_digits r (10 * acc + d)%Z true
      | None =>
          if Ascii.eqb a "_"%char && after_digit then
            match r with
            | EmptyString => None
            | String b _ =>
                match digit_of b with
                | Some _ => int_digits r acc false
                | None => None
                end
            end
          else None
      end
  end.

(** [int(s)] on a string of ASCII characters: surrounding white space, an
    optional sign, decimal digits. [None] stands for the [ValueError] that
    [int] raises on anything else. *)
Definition int_of_string (s : string) : option Z :=
  match rstrip (lstrip s) with
  | String "-" r => Z.opp <$> int_digits r 0%Z false
  | String "+" r => int_digits r 0%Z false
  | t => int_digits t 0%Z false
  end.

(** [int(q)] on a number: truncation towards zero. *)
Definition int_of_Q (q : Q) : Z := Z.quot (Qnum q) (Zpos (Qden q)).

(** [sep.join(parts)]. *)
Fixpoint join (sep : string) (parts : list string) : string :=
  match parts with
  | [] => EmptyString
  | [p] => p
  | p :: rest => p +:+ sep +:+ join sep rest
  end.

(** [s.replace(old, new)] for a one-character [old]. *)
Fixpoint replace_char (old : ascii) (new : string) (s : string) : string :=
  match s with
  | EmptyString => EmptyString
  | String a r =>
      (if Ascii.eqb a old then new else String a EmptyString) +:+ replace_char old new r
  end.

End Py.

(** ** Values, responses, exceptions *)

(** The Python values that JSON documents and configuration entries are made
    of. JSON numbers are kept as integers. *)
Inductive value : Type :=
| VNone
| VBool (b : bool)
| VInt (n : Z)
| VStr (s : string)
| VList (l : list value)
| VDict (m : gmap string value).

(** [tornado.httpclient.HTTPResponse]. Header names are kept in the spelling
    the source looks them up with. [body] is the outcome of
    [json.loads(resp.body.decode('utf-8'))]: [None] when that raises. *)
Record HTTPResponse : Type := mkResponse {
  code : Z;
  headers : gmap string string;
  body : option value
}.

(** [tornado.httpclient.HTTPRequest]. *)
Record HTTPRequest : Type := mkRequest {
  url : string;
  req_headers : gmap string string;
  user_agent : string
}.

Inductive exn : Type :=
| ValueError (msg : string)
| InvalidLiteral (s : string)            (* the [ValueError] of [int(s)] *)
| JSONDecodeError                        (* a [ValueError] as well *)
| UnpackError                            (* [ValueError]: wrong number of values to unpack *)
| KeyError (key : string)
| IndexError
| TypeError
| AttributeError
| ZeroDivisionError
| OverflowError
| HTTPError (status : Z) (response : option HTTPResponse).

Inductive result (A : Type) : Type :=
| Return (a : A)
| Raise (e : exn).

Arguments Return {A} a.
Arguments Raise {A} e.

Definition rbind {A B : Type} (r : result A) (k : A -> result B) : result B :=
  match r with
  | Return a => k a
  | Raise e => Raise e
  end.

Declare Scope result_scope.
Delimit Scope result_scope with result.
Notation "x <- r ;; k" := (rbind r (fun x => k))
  (at level 100, r at next level, right associativity) : result_scope.

(** ** [tokenize_spec] and [strip_suffix] *)

Definition spec_form_msg (spec : string) : string :=
  "Spec is not of the form " +:+ Py.dquote +:+ "user/repo/ref" +:+ Py.dquote
  +:+ ", provided: " +:+ Py.dquote +:+ spec +:+ Py.dquote +:+ ".".

Definition did_you_mean (spec : string) : string :=
  " Did you mean " +:+ Py.dquote +:+ spec +:+ "/master" +:+ Py.dquote +:+ "?".

Definition tokenize_spec (spec : string) : result (list string) :=
  let spec_parts := Py.split_max "/" 2 spec in
  if negb (length spec_parts =? 3)%nat then
    let msg := spec_form_msg spec in
    let msg :=
      if (length spec_parts =? 2)%nat
         && negb (bool_decide (last spec_parts = Some "master"))
      then msg +:+ did_you_mean spec else msg in
    Raise (ValueError msg)
  else Return spec_parts.

Definition strip_suffix (text suffix : string) : string :=
  if Py.endswith text suffix
  then Py.slice_to_neg text (String.length suffix)
  else text.

(** ** [RepoProvider]: the policy of the base class *)

Module RepoProvider.

Record t : Type := mk {
  spec : string;
  banned_specs : list string;
  high_quota_specs : list string;
  spec_config : list (gmap string value)
}.

(** [SHA1_PATTERN.match(sha1)] for [SHA1_PATTERN = re.compile(r'[0-9a-f]{40}')]:
    [match] anchors the pattern at the start of the string only. *)
Definition is_hex (a : ascii) : bool :=
  let n := nat_of_ascii a in
  ((48 <=? n) && (n <=? 57) || (97 <=? n) && (n <=? 102))%nat.

Fixpoint hex_prefix (k : nat) (s : string) : bool :=
  match k with
  | O => true
  | S k' =>
      match s with
      | String a r => is_hex a && hex_prefix k' r
      | EmptyString => false
      end
  end.

Definition SHA1_PATTERN_match (sha1 : string) : bool := hex_prefix 40 sha1.

Definition sha1_validate (sha1 : string) : result unit :=
  if negb (SHA1_PATTERN_match sha1)
  then Raise (ValueError "resolved_ref is not a valid sha1 hexadecimal hash")
  else Return tt.

(** [str(type(v))]. *)
Definition type_repr (v : value) : string :=
  match v with
  | VNone => "<class 'NoneType'>"
  | VBool _ => "<class 'bool'>"
  | VInt _ => "<class 'int'>"
  | VStr _ => "<class 'str'>"
  | VList _ => "<class 'list'>"
  | VDict _ => "<class 'dict'>"
  end.

Section Policy.

(** [re_match p s] stands for [re.match(p, s, re.IGNORECASE)] being a
    match, for the regular expression [p]: the pattern lists hold
    regular expressions. *)
Variable re_match : string -> string -> bool.



Fixpoint has_higher_quota_loop (spec : string) (high_quota_specs : list string) : bool :=
  match high_quota_specs with
  | [] => false
  | higher_quota :: rest =>
      if re_match higher_quota spec then true else has_higher_quota_loop spec rest
  end.

Definition has_higher_quota (self : t) : bool :=
  has_higher_quota_loop (spec self) (high_quota_specs self).

(** [d.get(key)] and [d.get(key, None)]. *)
Definition dict_get (d : gmap string value) (key : string) : value :=
  default VNone (d !! key).

(** [repo_config.update(config)]: the keys of [config] win. *)
Definition dict_update (repo_config config : gmap string value) : gmap string value :=
  config ∪ repo_config.

(** The loop [for item in self.spec_config]. *)
Fixpoint repo_config_loop (spec : string) (items : list (gmap string value))
    (repo_config : gmap string value) : result (gmap string value) :=
  match items with
  | [] => Return repo_config
  | item :: rest =>
      let pattern := dict_get item "pattern" in
      let config := dict_get item "config" in
      match pattern with
      | VStr p =>
          match config with
          | VDict c =>
              repo_config_loop spec rest
                (if re_match p spec then dict_update repo_config c else repo_config)
          | _ =>
              Raise (ValueError
                ("Spec-pattern configuration expected "
                 +:+ "a specification configuration dict, not "
                 +:+ "type " +:+ type_repr config))
          end
      | _ =>
          Raise (ValueError
            ("Spec-pattern configuration expected "
             +:+ "a regex pattern string, not "
             +:+ "type " +:+ type_repr pattern))
      end
  end.

Definition repo_config (self : t) (settings : gmap string value)
    : result (gmap string value) :=
  let repo_config : gmap string value :=
    if has_higher_quota self
    then <["quota" := dict_get settings "per_repo_quota_higher"]> ∅
    else <["quota" := dict_get settings "per_repo_quota"]> ∅ in
  repo_config_loop (spec self) (spec_config self) repo_config.

End Policy.

End RepoProvider.

(** ** The shared cache *)

Module Cache.

(** The value stored under an API URL: [{'etag': ..., 'sha': ...}]. The
    etag is [resp.headers.get('ETag')], absent when the header is. *)
Record entry : Type := mkEntry {
  etag : option string;
  sha : value
}.

(** Modelled from the spec: the class [Cache] of [binderhub/utils.py],
    which the sources do not include. A bounded, recency-ordered store:
    [items] runs from the least recently touched key to the most recently
    touched one; a key is touched when it is looked up, set or refreshed;
    [set] drops the least recently touched entry when the capacity is
    exceeded. *)
Record t : Type := mk {
  max_size : nat;
  items : list (string * entry)
}.

Definition lookup (key : string) (c : t) : option entry :=
  snd <$> List.find (fun kv => String.eqb (fst kv) key) (items c).

Definition without (key : string) (l : list (string * entry)) : list (string * entry) :=
  List.filter (fun kv => negb (String.eqb (fst kv) key)) l.

(** Recency refresh; nothing to refresh when the key is absent (the
    resolver only refreshes a key it has just found). *)
Definition move_to_end (key : string) (c : t) : t :=
  match lookup key c with
  | Some v => mk (max_size c) (without key (items c) ++ [(key, v)])%list
  | None => c
  end.

Definition get (key : string) (c : t) : option entry * t :=
  (lookup key c, move_to_end key c).

Definition set (key : string) (v : entry) (c : t) : t :=
  let l := (without key (items c) ++ [(key, v)])%list in
  mk (max_size c) (if (max_size c <? length l)%nat then List.tl l else l).

(** [Cache(1024)], as [GitHubRepoProvider.cache] is created. *)
Definition create (max_size : nat) : t := mk max_size [].

End Cache.

(** ** Running a resolver: state, effects, exceptions *)

Inductive level : Type := Debug | Info | Warning | Error.

Inductive event : Type :=
| EvLog (lvl : level)
| EvFetch (req : HTTPRequest)
| EvGauge (remaining : Z)
| EvCacheGet (key : string)
| EvCacheSet (key : string) (v : Cache.entry)
| EvCacheMoveToEnd (key : string).

(** The instance, the class-level cache and the effects so far, oldest
    first. *)
Record State (P : Type) : Type := mkState {
  self : P;
  cache : Cache.t;
  trace : list event
}.

Arguments mkState {P} self cache trace.
Arguments self {P} s.
Arguments cache {P} s.
Arguments trace {P} s.

Definition M (P A : Type) : Type := State P -> result A * State P.

Definition ret {P A} (a : A) : M P A := fun s => (Return a, s).

Definition raise {P A} (e : exn) : M P A := fun s => (Raise e, s).

Definition bind {P A B} (m : M P A) (k : A -> M P B) : M P B :=
  fun s =>
    match m s with
    | (Return a, s') => k a s'
    | (Raise e, s') => (Raise e, s')
    end.

Definition lift {P A} (r : result A) : M P A := fun s => (r, s).

Definition emit {P} (ev : event) : M P unit :=
  fun s => (Return tt, mkState (self s) (cache s) (trace s ++ [ev])%list).

Definition get_self {P} : M P P := fun s => (Return (self s), s).

Definition set_self {P} (p : P) : M P unit :=
  fun s => (Return tt, mkState p (cache s) (trace s)).

Definition cache_get {P} (key : string) : M P (option Cache.entry) :=
  fun s =>
    let (r, c) := Cache.get key (cache s) in
    (Return r, mkState (self s) c (trace s ++ [EvCacheGet key])%list).

Definition cache_set {P} (key : string) (v : Cache.entry) : M P unit :=
  fun s =>
    (Return tt, mkState (self s) (Cache.set key v (cache s)) (trace s ++ [EvCacheSet key v])%list).

Definition cache_move_to_end {P} (key : string) : M P unit :=
  fun s =>
    (Return tt,
     mkState (self s) (Cache.move_to_end key (cache s)) (trace s ++ [EvCacheMoveToEnd key])%list).

Declare Scope monad_scope.
Delimit Scope monad_scope with monad.
Notation "x <- m ;; k" := (bind m (fun x => k))
  (at level 100, m at next level, right associativity) : monad_scope.
Notation "m ;; k" := (bind m (fun _ => k))
  (at level 100, right associativity) : monad_scope.

(** ** Python operations on values *)

(** [bool(v)]. *)
Definition truthy (v : value) : bool :=
  match v with
  | VNone => false
  | VBool b => b
  | VInt n => negb (n =? 0)%Z
  | VStr s => negb (String.eqb s "")
  | VList l => negb (length l =? 0)%nat
  | VDict m => negb (bool_decide (m = ∅))
  end.

(** [v[key]] for a string [key]: only a dict can be subscripted by a
    string. *)
Definition subscript (v : value) (key : string) : result value :=
  match v with
  | VDict m =>
      match m !! key with
      | Some x => Return x
      | None => Raise (KeyError key)
      end
  | _ => Raise TypeError
  end.

Definition is_str (s : string) (v : value) : bool :=
  match v with
  | VStr t => String.eqb t s
  | _ => false
  end.

(** [s in l] for a string [s] and a list [l]: equality with an element
    holds for the same string only. *)
Definition str_in_list (s : string) (l : list value) : bool :=
  existsb (is_str s) l.

(** [sub in s] for strings. *)
Fixpoint is_substring (sub s : string) : bool :=
  String.prefix sub s ||
  match s with
  | EmptyString => false
  | String _ r => is_substring sub r
  end.

(** [key in v] for a string [key]: a key of a dict, an element of a list, a
    substring of a string; other values are not containers. *)
Definition contains (v : value) (key : string) : result bool :=
  match v with
  | VDict m => Return (bool_decide (is_Some (m !! key)))
  | VList l => Return (str_in_list key l)
  | VStr s => Return (is_substring key s)
  | _ => Raise TypeError
  end.

(** [[e['version'] for e in v]]: a list is walked element by element;
    iterating a dict or a string yields strings, which [e['version']]
    rejects; other values are not iterable. *)
Fixpoint versions_of (l : list value) : result (list value) :=
  match l with
  | [] => Return []
  | e :: rest =>
      (x <- subscript e "version";;
       xs <- versions_of rest;;
       Return (x :: xs))%result
  end.

Definition all_versions_of (history : value) : result (list value) :=
  match history with
  | VList l => versions_of l
  | VDict m => if bool_decide (m = ∅) then Return [] else Raise TypeError
  | VStr s => if String.eqb s "" then Return [] else Raise TypeError
  | _ => Raise TypeError
  end.

(** [json.loads(resp.body.decode('utf-8'))]. *)
Definition json_body (resp : HTTPResponse) : result value :=
  match body resp with
  | Some v => Return v
  | None => Raise JSONDecodeError
  end.

(** [headers[name]]. *)
Definition header (h : gmap string string) (name : string) : result string :=
  match h !! name with
  | Some v => Return v
  | None => Raise (KeyError name)
  end.

(** [int(s)]. *)
Definition py_int (s : string) : result Z :=
  match Py.int_of_string s with
  | Some z => Return z
  | None => Raise (InvalidLiteral s)
  end.

(** [timedelta(seconds=s)]: the day count must stay within
    [+-999999999]. *)
Definition timedelta (s : Z) : result Z :=
  if (Z.abs (s / 86400) <=? 999999999)%Z then Return s else Raise OverflowError.

(** ** The providers *)

Module FakeProvider.

Definition get_resolved_ref : result value := Return (VStr "1a2b3c4d5e6f").

Definition get_repo_url : string := "https://example.com/fake/repo.git".

Definition get_build_slug : string := "Rick" +:+ "-" +:+ "Morty".

End FakeProvider.

Module GitRepoProvider.

Record t : Type := mk {
  spec : string;
  repo : string;
  resolved_ref : string;
  unresolved_ref : string
}.

Section Init.

(** [urllib.parse.unquote]. *)
Variable unquote : string -> string.

Definition init (spec : string) : result t :=
  match Py.rsplit1 "/" spec with
  | [url; resolved_ref] =>
      let repo := unquote url in
      if String.eqb resolved_ref "" then
        Raise (ValueError
          "`resolved_ref` must be specified as a query parameter for the basic git provider")
      else
        (_ <- RepoProvider.sha1_validate resolved_ref;;
         Return (mk spec repo resolved_ref resolved_ref))%result
  | _ => Raise UnpackError
  end.

End Init.

Definition get_resolved_ref (self : t) : result value :=
  Return (VStr (resolved_ref self)).

Definition get_repo_url (self : t) : string := repo self.

Definition get_build_slug (self : t) : string := repo self.

End GitRepoProvider.

Module GitHubRepoProvider.

(** [resolved_ref] is [None] until the attribute is set:
    [hasattr(self, 'resolved_ref')] is [is_Some]. *)
Record t : Type := mk {
  spec : string;
  hostname : string;
  auth : list (string * string);
  user : string;
  repo : string;
  unresolved_ref : string;
  resolved_ref : option value
}.

Definition init (spec hostname : string) (auth : list (string * string)) : result t :=
  (parts <- tokenize_spec spec;;
   match parts with
   | [user; repo; unresolved_ref] =>
       Return (mk spec hostname auth user (strip_suffix repo ".git") unresolved_ref None)
   | _ => Raise UnpackError
   end)%result.

Definition with_resolved_ref (self : t) (v : value) : t :=
  mk (spec self) (hostname self) (auth self) (user self) (repo self)
     (unresolved_ref self) (Some v).

Definition get_repo_url (self : t) : string :=
  "https://" +:+ hostname self +:+ "/" +:+ user self +:+ "/" +:+ repo self.

Definition get_build_slug (self : t) : string := user self +:+ "-" +:+ repo self.

Definition Qlt_bool (x y : Q) : bool := negb (Qle_bool y x).

(** The level the remaining quota is logged at. *)
Definition rate_limit_level (remaining rate_limit : Z) : level :=
  let fraction := (inject_Z remaining / inject_Z rate_limit)%Q in
  if Qlt_bool fraction (1 # 5) then Warning
  else if Qlt_bool fraction (1 # 2) then Info
  else Debug.

Definition rate_limit_exceeded (minutes_until_reset : Z) : exn :=
  ValueError ("GitHub rate limit exceeded. Try again in "
              +:+ Py.string_of_Z minutes_until_reset +:+ " minutes.").

Definition api_url (self : t) : string :=
  "https://api." +:+ hostname self +:+ "/repos/" +:+ user self +:+ "/" +:+ repo self
  +:+ "/commits/" +:+ unresolved_ref self.

Section Client.

(** [tornado.httputil.url_concat]. *)
Variable url_concat : string -> list (string * string) -> string.
(** What [AsyncHTTPClient().fetch] answers: a response, or the exception
    it raises, an [HTTPError] for a status outside 2xx. *)
Variable fetch : HTTPRequest -> result HTTPResponse.
(** [time.time()]. *)
Variable now : Q.

Definition request (auth : list (string * string)) (api_url : string)
    (etag : option string) : HTTPRequest :=
  let api_url := match auth with [] => api_url | _ => url_concat api_url auth end in
  let headers : gmap string string :=
    match etag with
    | Some e => if String.eqb e "" then ∅ else {[ "If-None-Match" := e ]}
    | None => ∅
    end in
  mkRequest api_url headers "BinderHub".

(** The [except HTTPError as e] branch taken on a rate-limited 403. *)
Definition rate_limited {P} (h : gmap string string) : M P (option HTTPResponse) :=
  (rate_limit <- lift (header h "x-ratelimit-limit");;
   reset_header <- lift (header h "x-ratelimit-reset");;
   reset_timestamp <- lift (py_int reset_header);;
   let reset_seconds := Py.int_of_Q (inject_Z reset_timestamp - now) in
   delta <- lift (timedelta reset_seconds);;
   emit (EvLog Error);;
   let minutes_until_reset := (5 * (1 + reset_seconds / 60 / 5))%Z in
   raise (rate_limit_exceeded minutes_until_reset))%monad.

(** [# record and log github rate limit]. *)
Definition record_rate_limit {P} (h : gmap string string) : M P unit :=
  (remaining_header <- lift (header h "x-ratelimit-remaining");;
   remaining <- lift (py_int remaining_header);;
   limit_header <- lift (header h "x-ratelimit-limit");;
   rate_limit <- lift (py_int limit_header);;
   reset_header <- lift (header h "x-ratelimit-reset");;
   reset_timestamp <- lift (py_int reset_header);;
   emit (EvGauge remaining);;
   if (rate_limit =? 0)%Z then raise ZeroDivisionError
   else
     let log := rate_limit_level remaining rate_limit in
     delta <- lift (timedelta (Py.int_of_Q (inject_Z reset_timestamp - now)));;
     emit (EvLog log))%monad.

(** The condition [e.code == 403 and e.response and
    e.response.headers.get('x-ratelimit-remaining') == '0'], with the
    response it holds for. *)
Definition rate_limit_hit (status : Z) (response : option HTTPResponse)
    : option HTTPResponse :=
  match response with
  | Some resp =>
      if (status =? 403)%Z
         && bool_decide (headers resp !! "x-ratelimit-remaining" = Some "0")
      then Some resp else None
  | None => None
  end.

(** The handler [except HTTPError as e]; [None] is its [return None]. *)
Definition on_http_error {P} (status : Z) (response : option HTTPResponse)
    : M P (option HTTPResponse) :=
  if (status =? 304)%Z then
    match response with
    | Some resp => ret (Some resp)
    | None => raise AttributeError
    end
  else
    match rate_limit_hit status response with
    | Some resp => rate_limited (headers resp)
    | None =>
        if (status =? 404)%Z || (status =? 422)%Z then ret None
        else raise (HTTPError status response)
    end.

Definition try_fetch {P} (req : HTTPRequest) : M P (option HTTPResponse) :=
  match fetch req with
  | Return resp => ret (Some resp)
  | Raise e =>
      match e with
      | HTTPError status response => on_http_error status response
      | _ => raise e
      end
  end.

Definition github_api_request {P} (auth : list (string * string)) (api_url : string)
    (etag : option string) : M P (option HTTPResponse) :=
  (let req := request auth api_url etag in
   emit (EvFetch req);;
   r <- try_fetch req;;
   match r with
   | None => ret None
   | Some resp => record_rate_limit (headers resp);; ret (Some resp)
   end)%monad.

Definition set_resolved_ref (v : value) : M t unit :=
  (p <- get_self;; set_self (with_resolved_ref p v))%monad.

Definition get_resolved_ref : M t value :=
  (p <- get_self;;
   match resolved_ref p with
   | Some v => ret v
   | None =>
       let api_url := api_url p in
       emit (EvLog Debug);;
       cached <- cache_get api_url;;
       etag <- match cached with
               | Some c => emit (EvLog Debug);; ret (Cache.etag c)
               | None => ret None
               end;;
       resp <- github_api_request (auth p) api_url etag;;
       match resp with
       | None => ret VNone
       | Some resp =>
           if (code resp =? 304)%Z then
             match cached with
             | None => raise TypeError
             | Some c =>
                 emit (EvLog Info);;
                 set_resolved_ref (Cache.sha c);;
                 cache_move_to_end api_url;;
                 ret (Cache.sha c)
             end
           else
             (match cached with
              | Some _ => emit (EvLog Debug)
              | None => ret tt
              end);;
             ref_info <- lift (json_body resp);;
             has_sha <- lift (contains ref_info "sha");;
             if negb has_sha then
               emit (EvLog Warning);;
               set_resolved_ref VNone;;
               ret VNone
             else
               sha <- lift (subscript ref_info "sha");;
               set_resolved_ref sha;;
               cache_set api_url (Cache.mkEntry (headers resp !! "ETag") sha);;
               ret sha
       end
   end)%monad.

End Client.

(** [_default_auth]: the credentials that are set, in the order of the
    loop. The three arguments are the values of the traits. *)
Definition default_auth (client_id client_secret access_token : string)
    : list (string * string) :=
  List.filter (fun kv => negb (String.eqb kv.2 ""))
    [("client_id", client_id); ("client_secret", client_secret);
     ("access_token", access_token)].

(** [_default_git_credentials]: the templates are raw strings, their
    [\n] is a backslash and an [n]. *)
Definition default_git_credentials (client_id access_token : string) : string :=
  if negb (String.eqb access_token "") then
    if negb (String.eqb client_id "")
    then "username=" +:+ client_id +:+ "\npassword=" +:+ access_token
    else "username=" +:+ access_token +:+ "\npassword=x-oauth-basic"
  else "".

End GitHubRepoProvider.

Module GistRepoProvider.

Record t : Type := mk {
  spec : string;
  auth : list (string * string);
  allow_secret_gist : bool;
  user : string;
  gist_id : string;
  unresolved_ref : string;
  resolved_ref : option value
}.

Definition init (spec : string) (auth : list (string * string)) (allow_secret_gist : bool)
    : result t :=
  match Py.split "/" spec with
  | user :: gist_id :: rest =>
      Return (mk spec auth allow_secret_gist user gist_id
                 (match rest with ref :: _ => ref | [] => "" end) None)
  | _ => Raise UnpackError
  end.

Definition with_resolved_ref (self : t) (v : value) : t :=
  mk (spec self) (auth self) (allow_secret_gist self) (user self) (gist_id self)
     (unresolved_ref self) (Some v).

Definition get_repo_url (self : t) : string :=
  "https://gist.github.com/" +:+ user self +:+ "/" +:+ gist_id self +:+ ".git".

Definition get_build_slug (self : t) : string := gist_id self.

Definition api_url (self : t) : string := "https://api.github.com/gists/" +:+ gist_id self.

Definition secret_gist_msg : string :=
  "You seem to want to use a secret Gist, but do not have permission to do so. "
  +:+ "To enable secret Gist support, set (or have an administrator set) "
  +:+ "'GistRepoProvider.allow_secret_gist = True'".

Section Client.

Variable url_concat : string -> list (string * string) -> string.
Variable fetch : HTTPRequest -> result HTTPResponse.
Variable now : Q.

Definition set_resolved_ref (v : value) : M t unit :=
  (p <- get_self;; set_self (with_resolved_ref p v))%monad.

(** [(not self.allow_secret_gist) and (not ref_info['public'])]: the
    subscript is evaluated only when secret gists are not allowed. *)
Definition is_forbidden (p : t) (ref_info : value) : result bool :=
  if negb (allow_secret_gist p)
  then (public <- subscript ref_info "public";; Return (negb (truthy public)))%result
  else Return false.

Definition get_resolved_ref : M t value :=
  (p <- get_self;;
   match resolved_ref p with
   | Some v => ret v
   | None =>
       let api_url := api_url p in
       emit (EvLog Debug);;
       resp <- GitHubRepoProvider.github_api_request url_concat fetch now
                 (auth p) api_url None;;
       match resp with
       | None => ret VNone
       | Some resp =>
           ref_info <- lift (json_body resp);;
           forbidden <- lift (is_forbidden p ref_info);;
           if forbidden then raise (ValueError secret_gist_msg)
           else
             history <- lift (subscript ref_info "history");;
             all_versions <- lift (all_versions_of history);;
             if (String.length (unresolved_ref p) =? 0)%nat
                || String.eqb (unresolved_ref p) "master"
             then
               match all_versions with
               | v :: _ => set_resolved_ref v;; ret v
               | [] => raise IndexError
               end
             else if negb (str_in_list (unresolved_ref p) all_versions) then ret VNone
             else
               set_resolved_ref (VStr (unresolved_ref p));;
               ret (VStr (unresolved_ref p))
       end
   end)%monad.

End Client.

End GistRepoProvider.

Module GitLabRepoProvider.

Record t : Type := mk {
  spec : string;
  hostname : string;
  auth : list (string * string);
  namespace : string;
  unresolved_ref : string;
  resolved_ref : option value
}.

Definition with_resolved_ref (self : t) (v : value) : t :=
  mk (spec self) (hostname self) (auth self) (namespace self) (unresolved_ref self) (Some v).

Section Client.

(** [urllib.parse.unquote] and [urllib.parse.quote(_, safe='')]. *)
Variable unquote : string -> string.
Variable quote : string -> string.
Variable url_concat : string -> list (string * string) -> string.
Variable fetch : HTTPRequest -> result HTTPResponse.

Definition init (spec hostname : string) (auth : list (string * string)) : result t :=
  match Py.split_max "/" 1 spec with
  | [quoted_namespace; unresolved_ref] =>
      let namespace := unquote quoted_namespace in
      let unresolved_ref := unquote unresolved_ref in
      if String.eqb unresolved_ref ""
      then Raise (ValueError "An unresolved ref is required")
      else Return (mk spec hostname auth namespace unresolved_ref None)
  | _ => Raise UnpackError
  end.

Definition api_url (self : t) : string :=
  "https://" +:+ hostname self +:+ "/api/v4/projects/" +:+ quote (namespace self)
  +:+ "/repository/commits/" +:+ quote (unresolved_ref self).

Definition request (self : t) : HTTPRequest :=
  let api_url := api_url self in
  let api_url := match auth self with [] => api_url | a => url_concat api_url a end in
  mkRequest api_url ∅ "BinderHub".

Definition get_resolved_ref : M t value :=
  (p <- get_self;;
   match resolved_ref p with
   | Some v => ret v
   | None =>
       emit (EvLog Debug);;
       emit (EvFetch (request p));;
       match fetch (request p) with
       | Raise (HTTPError status response) =>
           if (status =? 404)%Z then ret VNone else raise (HTTPError status response)
       | Raise e => raise e
       | Return resp =>
           ref_info <- lift (json_body resp);;
           id <- lift (subscript ref_info "id");;
           set_self (with_resolved_ref p id);;
           ret id
       end
   end)%monad.

Definition get_repo_url (self : t) : string :=
  "https://" +:+ hostname self +:+ "/" +:+ namespace self +:+ ".git".

End Client.

(** [# escape the name and replace dashes with something else.] *)
Definition get_build_slug (self : t) : string :=
  Py.join "-" (Py.replace_char "-" "_-" <$> Py.split "/" (namespace self)).

Definition default_auth (access_token private_token : string) : list (string * string) :=
  List.filter (fun kv => negb (String.eqb kv.2 ""))
    [("access_token", access_token); ("private_token", private_token)].

Definition default_git_credentials (private_token : string) : string :=
  if negb (String.eqb private_token "")
  then "username=binderhub\npassword=" +:+ private_token
  else "".

End GitLabRepoProvider.

Module ZenodoProvider.

(** [record_id] is [None] until [get_resolved_ref] has set the attribute. *)
Record t : Type := mk {
  spec : string;
  record_id : option string
}.

Definition request (self : t) : HTTPRequest :=
  mkRequest ("https://doi.org/" +:+ spec self) ∅ "BinderHub".

Section Client.

(** What the client answers after following the redirects of the DOI: the
    [effective_url] of the response, the only member the provider reads, or
    the exception raised. *)
Variable fetch : HTTPRequest -> result string.

Definition get_resolved_ref : M t value :=
  (p <- get_self;;
   emit (EvFetch (request p));;
   match fetch (request p) with
   | Raise e => raise e
   | Return effective_url =>
       match Py.rsplit1 "/" effective_url with
       | [_; record_id] =>
           set_self (mk (spec p) (Some record_id));;
           ret (VStr record_id)
       | _ => raise IndexError
       end
   end)%monad.

End Client.

Definition get_repo_url (self : t) : string := spec self.

(** [self.record_id] is an attribute error before the first resolution. *)
Definition get_build_slug (self : t) : result string :=
  match record_id self with
  | Some id => Return ("zenodo-" +:+ id)
  | None => Raise AttributeError
  end.

End ZenodoProvider.

(** ** Vocabulary of the specification *)

Definition no_slash (s : string) : Prop := Py.contains_char "/" s = false.

(** A resolved reference as the specification defines it: a string of
    exactly 40 characters, each of them in [0-9a-f]. *)
Definition is_sha1 (s : string) : Prop :=
  String.length s = 40%nat /\ RepoProvider.hex_prefix 40 s = true.





(** The rate-limit headers of a response can be read: the three of them
    are there and hold integers, the limit is not zero (the remaining
    fraction is a quotient by it) and the time to the reset fits a
    [timedelta]. *)
Definition reads_rate_limit (now : Q) (h : gmap string string)
    (remaining rate_limit reset_timestamp : Z) : Prop :=
  (exists s, h !! "x-ratelimit-remaining" = Some s /\ Py.int_of_string s = Some remaining)
  /\ (exists s, h !! "x-ratelimit-limit" = Some s /\ Py.int_of_string s = Some rate_limit)
  /\ (exists s, h !! "x-ratelimit-reset" = Some s /\ Py.int_of_string s = Some reset_timestamp)
  /\ rate_limit <> 0%Z
  /\ (Z.abs (Py.int_of_Q (inject_Z reset_timestamp - now) / 86400) <= 999999999)%Z.

(** The state after some more effects. *)
Definition add_trace {P} (s : State P) (tr : list event) : State P :=
  mkState (self s) (cache s) (trace s ++ tr)%list.

Definition is_cache_set (ev : event) : Prop :=
  match ev with
  | EvCacheSet _ _ => True
  | _ => False
  end.

Definition is_fetch (ev : event) : Prop :=
  match ev with
  | EvFetch _ => True
  | _ => False
  end.

(** ** Sample inputs *)

Fixpoint query_string (args : list (string * string)) : string :=
  match args with
  | [] => ""
  | [(k, v)] => k +:+ "=" +:+ v
  | (k, v) :: rest => k +:+ "=" +:+ v +:+ "&" +:+ query_string rest
  end.

(** A stand-in for [url_concat] on URLs without a query and arguments that
    need no escaping. *)
Definition sample_url_concat (url : string) (args : list (string * string)) : string :=
  url +:+ "?" +:+ query_string args.


(** The client whose answer is [r] whatever the request. *)
Definition answer (r : result HTTPResponse) : HTTPRequest -> result HTTPResponse :=
  fun _ => r.

Definition rate_limit_headers (remaining limit reset : string) : gmap string string :=
  {[ "x-ratelimit-remaining" := remaining;
     "x-ratelimit-limit" := limit;
     "x-ratelimit-reset" := reset ]}.

Definition sample_sha : string := "f7f3ff6d1bf708bdc12e5f10e18b2a90a4795603".

Definition other_sha : string := "0123456789abcdef0123456789abcdef01234567".

(** The provider of the spec [jupyterhub/binderhub/master]. *)
Definition sample_github : GitHubRepoProvider.t :=
  GitHubRepoProvider.mk "jupyterhub/binderhub/master" "github.com" []
    "jupyterhub" "binderhub" "master" None.

Definition sample_api_url : string :=
  "https://api.github.com/repos/jupyterhub/binderhub/commits/master".

Definition sample_entry : Cache.entry := Cache.mkEntry (Some "W/etag-1") (VStr sample_sha).

Definition sample_cache : Cache.t :=
  Cache.mk 1024 [(sample_api_url, sample_entry);
                 ("https://api.github.com/repos/a/b/commits/c",
                  Cache.mkEntry None (VStr other_sha))].

(** A state with no effects yet. *)
Definition start {P} (p : P) (c : Cache.t) : State P := mkState p c [].

(** The metadata of a gist as the resolver reads it: a dict whose [history]
    is a list of entries with a [version] each, [versions] in that order
    (newest first); the gist passes the gate when secret gists are allowed
    or its [public] member is truthy. *)
Definition gist_metadata (ref_info : value) (versions : list value) : Prop :=
  exists m hs,
    ref_info = VDict m /\ m !! "history" = Some (VList hs)
    /\ versions_of hs = Return versions.

Definition passes_gate (p : GistRepoProvider.t) (ref_info : value) : Prop :=
  GistRepoProvider.allow_secret_gist p = true
  \/ exists public, subscript ref_info "public" = Return public /\ truthy public = true.

(** The outcome of the selection among the versions, from the state [s1]
    the request leaves. *)
Definition gist_selection (p : GistRepoProvider.t) (versions : list value)
    (s1 : State GistRepoProvider.t) : result value * State GistRepoProvider.t :=
  if (String.length (GistRepoProvider.unresolved_ref p) =? 0)%nat
     || String.eqb (GistRepoProvider.unresolved_ref p) "master"
  then
    match versions with
    | v :: _ =>
        (Return v, mkState (GistRepoProvider.with_resolved_ref p v) (cache s1) (trace s1))
    | [] => (Raise IndexError, s1)
    end
  else if negb (str_in_list (GistRepoProvider.unresolved_ref p) versions)
  then (Return VNone, s1)
  else (Return (VStr (GistRepoProvider.unresolved_ref p)),
        mkState (GistRepoProvider.with_resolved_ref p
                   (VStr (GistRepoProvider.unresolved_ref p)))
                (cache s1) (trace s1)).

(** The gist of the spec [user/gist-id], with no reference. *)
Definition sample_gist (allow_secret_gist : bool) (unresolved_ref : string)
    : GistRepoProvider.t :=
  GistRepoProvider.mk "minrk/8f1c1a0b3a1e4d1c9c55" [] allow_secret_gist
    "minrk" "8f1c1a0b3a1e4d1c9c55" unresolved_ref None.

Definition gist_document (public : bool) (versions : list string) : value :=
  VDict {[ "public" := VBool public;
           "history" := VList ((fun v => VDict {[ "version" := VStr v ]}) <$> versions) ]}.

Definition fetched (doc : value) : result HTTPResponse :=
  Return (mkResponse 200 (rate_limit_headers "59" "60" "1130") (Some doc)).

(** [resp] is a response the client hands over: the one it returns, or the
    one the [HTTPError] it raises carries. *)
Definition answers (fetch : HTTPRequest -> result HTTPResponse) (resp : HTTPResponse) : Prop :=
  exists req,
    fetch req = Return resp \/ exists status, fetch req = Raise (HTTPError status (Some resp)).

Definition sample_document : value := VDict {[ "sha" := VStr sample_sha ]}.

Definition not_modified : result HTTPResponse :=
  Raise (HTTPError 304 (Some (mkResponse 304 (rate_limit_headers "59" "60" "1130") None))).



Definition is_cache_access (ev : event) : Prop :=
  match ev with
  | EvCacheGet _ | EvCacheSet _ _ | EvCacheMoveToEnd _ => True
  | _ => False
  end.

(** A computation that makes no fetch: its events are appended to the
    trace and none of them is a fetch. *)
Definition quiet {P A} (m : M P A) : Prop :=
  forall s r s',
    m s = (r, s') ->
    exists tr, trace s' = (trace s ++ tr)%list /\ Forall (fun ev => ~ is_fetch ev) tr.

(** * Properties *)

(** ** Splitting *)

Lemma cut_no_sep sep s : Py.contains_char sep s = false -> Py.cut sep s = None.
Proof.
  induction s as [|a r IH]; simpl; [done|].
  destruct (Ascii.eqb a sep); [done|]. intros H. by rewrite IH.
Qed.

Lemma cut_first sep u r :
  Py.contains_char sep u = false ->
  Py.cut sep (u +:+ String sep r) = Some (u, r).
Proof.
  induction u as [|a u IH]; simpl.
  - by rewrite Ascii.eqb_refl.
  - destruct (Ascii.eqb a sep); [done|]. intros H. by rewrite IH.
Qed.

Lemma cut_shape sep s :
  match Py.cut sep s with
  | Some (u, r) => s = u +:+ String sep r /\ Py.contains_char sep u = false
  | None => Py.contains_char sep s = false
  end.
Proof.
  induction s as [|a r IH]; simpl; [done|].
  destruct (Ascii.eqb a sep) eqn:E.
  - apply Ascii.eqb_eq in E. by subst.
  - destruct (Py.cut sep r) as [[x y]|]; [|done].
    destruct IH as [-> Hx]. simpl. by rewrite E.
Qed.

Lemma split_two_of_three u r ref :
  no_slash u -> no_slash r ->
  Py.split_max "/" 2 (u +:+ "/" +:+ r +:+ "/" +:+ ref) = [u; r; ref].
Proof.
  intros Hu Hr. cbn [Py.split_max].
  change ("/" +:+ r +:+ "/" +:+ ref) with (String "/" (r +:+ String "/" ref)).
  rewrite (cut_first "/" u) by done. by rewrite (cut_first "/" r).
Qed.

Lemma split_two_of_two u r :
  no_slash u -> no_slash r -> Py.split_max "/" 2 (u +:+ "/" +:+ r) = [u; r].
Proof.
  intros Hu Hr. cbn [Py.split_max].
  change ("/" +:+ r) with (String "/" r).
  rewrite (cut_first "/" u) by done. by rewrite (cut_no_sep "/" r).
Qed.

Lemma split_two_of_one u : no_slash u -> Py.split_max "/" 2 u = [u].
Proof. intros Hu. cbn [Py.split_max]. by rewrite (cut_no_sep "/" u). Qed.

Lemma spec_shapes spec :
  (exists u r ref, no_slash u /\ no_slash r /\ spec = u +:+ "/" +:+ r +:+ "/" +:+ ref)
  \/ (exists u r, no_slash u /\ no_slash r /\ spec = u +:+ "/" +:+ r)
  \/ no_slash spec.
Proof.
  pose proof (cut_shape "/" spec) as H1.
  destruct (Py.cut "/" spec) as [[u t]|]; [|by right; right].
  destruct H1 as [-> Hu].
  pose proof (cut_shape "/" t) as H2.
  destruct (Py.cut "/" t) as [[r ref]|].
  - destruct H2 as [-> Hr]. left. by exists u, r, ref.
  - right; left. by exists u, t.
Qed.



(** ** The Git provider *)

Lemma rcut_last sep url ref :
  Py.contains_char sep ref = false ->
  Py.rcut sep (url +:+ String sep ref) = Some (url, ref).
Proof.
  intros Href. induction url as [|a url IH]; simpl.
  - rewrite Ascii.eqb_refl.
    assert (Py.rcut sep ref = None) as ->; [|done].
    clear -Href. induction ref as [|b r IH]; simpl in *; [done|].
    destruct (Ascii.eqb b sep); [done|]. by rewrite IH.
  - by rewrite IH.
Qed.

(** What the constructor accepts: a spec [url/ref] whose [ref], free of
    ['/'], starts with 40 characters of [0-9a-f]. *)
Lemma git_init_accepts unquote url ref :
  no_slash ref -> RepoProvider.hex_prefix 40 ref = true ->
  GitRepoProvider.init unquote (url +:+ "/" +:+ ref)
  = Return (GitRepoProvider.mk (url +:+ "/" +:+ ref) (unquote url) ref ref).
Proof.
  intros Href Hhex. unfold GitRepoProvider.init, Py.rsplit1.
  change ("/" +:+ ref) with (String "/" ref). rewrite rcut_last by done.
  destruct ref as [|a r]; [done|]. cbn [String.eqb].
  unfold RepoProvider.sha1_validate, RepoProvider.SHA1_PATTERN_match.
  by rewrite Hhex.
Qed.

(** C5. The constructor of the Git provider accepts the spec whose trailing
    component is 40 characters of [0-9a-f] followed by [zz], 42 characters
    in all: [SHA1_PATTERN.match] anchors the pattern at the start only. *)
Theorem git_init_accepts_trailing_text :
  let ref := "0123456789abcdef0123456789abcdef01234567zz" in
  let spec := "https%3A%2F%2Fexample.org%2Frepo/" +:+ ref in
  String.length ref = 42%nat
  /\ ~ is_sha1 ref
  /\ forall unquote,
       GitRepoProvider.init unquote spec
       = Return (GitRepoProvider.mk spec (unquote "https%3A%2F%2Fexample.org%2Frepo") ref ref).
Proof.
  split; [reflexivity|]. split.
  - intros [Hlen _]. discriminate Hlen.
  - intros unquote. reflexivity.
Qed.

(** ** The policy *)




(** ** Running the monad *)

Lemma add_trace_add_trace {P} (s : State P) tr1 tr2 :
  add_trace (add_trace s tr1) tr2 = add_trace s (tr1 ++ tr2)%list.
Proof. unfold add_trace. simpl. by rewrite <- app_assoc. Qed.

Lemma add_trace_nil {P} (s : State P) : add_trace s [] = s.
Proof. destruct s. unfold add_trace. simpl. by rewrite app_nil_r. Qed.

Lemma bind_Return {P A B} (m : M P A) (k : A -> M P B) s a s' :
  m s = (Return a, s') -> bind m k s = k a s'.
Proof. intros H. unfold bind. by rewrite H. Qed.


Lemma emit_run {P} ev (s : State P) : emit ev s = (Return tt, add_trace s [ev]).
Proof. done. Qed.

Lemma lift_run {P A} (r : result A) (s : State P) : lift r s = (r, s).
Proof. done. Qed.

(** ** The GitHub request *)

Section Request.

Context {P : Type}.
Variable url_concat : string -> list (string * string) -> string.
Variable fetch : HTTPRequest -> result HTTPResponse.
Variable now : Q.

Lemma record_rate_limit_run h remaining rate_limit reset_timestamp (s : State P) :
  reads_rate_limit now h remaining rate_limit reset_timestamp ->
  GitHubRepoProvider.record_rate_limit now h s
  = (Return tt,
     add_trace s [EvGauge remaining;
                  EvLog (GitHubRepoProvider.rate_limit_level remaining rate_limit)]).
Proof.
  intros ((s1 & H1 & I1) & (s2 & H2 & I2) & (s3 & H3 & I3) & Hne & Hdelta).
  apply Z.eqb_neq in Hne. apply Z.leb_le in Hdelta.
  unfold GitHubRepoProvider.record_rate_limit, header, py_int, timedelta, bind, lift, emit.
  rewrite H1, H2, H3. cbv beta iota. rewrite I1, I2, I3. cbv beta iota.
  rewrite Hne, Hdelta. cbv beta iota.
  unfold add_trace. cbn [self cache trace]. by rewrite <- app_assoc.
Qed.







Lemma github_api_request_not_modified auth api_url etag resp remaining rate_limit
    reset_timestamp (s : State P) :
  fetch (GitHubRepoProvider.request url_concat auth api_url etag) = Raise (HTTPError 304 (Some resp)) ->
  reads_rate_limit now (headers resp) remaining rate_limit reset_timestamp ->
  GitHubRepoProvider.github_api_request url_concat fetch now auth api_url etag s
  = (Return (Some resp),
     add_trace s [EvFetch (GitHubRepoProvider.request url_concat auth api_url etag); EvGauge remaining;
                  EvLog (GitHubRepoProvider.rate_limit_level remaining rate_limit)]).
Proof.
  intros Hf Hr. unfold GitHubRepoProvider.github_api_request.
  rewrite (bind_Return _ _ _ _ _ (emit_run _ s)).
  erewrite bind_Return; cycle 1.
  { unfold GitHubRepoProvider.try_fetch. rewrite Hf. reflexivity. }
  cbv beta iota.
  rewrite (bind_Return _ _ _ _ _ (record_rate_limit_run _ _ _ _ _ Hr)).
  unfold ret. by rewrite add_trace_add_trace.
Qed.

Lemma github_api_request_fetched auth api_url etag resp remaining rate_limit
    reset_timestamp (s : State P) :
  fetch (GitHubRepoProvider.request url_concat auth api_url etag) = Return resp ->
  reads_rate_limit now (headers resp) remaining rate_limit reset_timestamp ->
  GitHubRepoProvider.github_api_request url_concat fetch now auth api_url etag s
  = (Return (Some resp),
     add_trace s [EvFetch (GitHubRepoProvider.request url_concat auth api_url etag); EvGauge remaining;
                  EvLog (GitHubRepoProvider.rate_limit_level remaining rate_limit)]).
Proof.
  intros Hf Hr. unfold GitHubRepoProvider.github_api_request.
  rewrite (bind_Return _ _ _ _ _ (emit_run _ s)).
  erewrite bind_Return; cycle 1.
  { unfold GitHubRepoProvider.try_fetch. rewrite Hf. reflexivity. }
  cbv beta iota.
  rewrite (bind_Return _ _ _ _ _ (record_rate_limit_run _ _ _ _ _ Hr)).
  unfold ret. by rewrite add_trace_add_trace.
Qed.

End Request.



(** ** The cache *)

Lemma find_without_same key (l : list (string * Cache.entry)) :
  List.find (fun kv => String.eqb kv.1 key) (Cache.without key l) = None.
Proof.
  induction l as [|[k v] l IH]; simpl; [done|].
  destruct (String.eqb k key) eqn:E; simpl; [done|]. by rewrite E.
Qed.

Lemma find_without_other key key' (l : list (string * Cache.entry)) :
  key' <> key ->
  List.find (fun kv => String.eqb kv.1 key') (Cache.without key l)
  = List.find (fun kv => String.eqb kv.1 key') l.
Proof.
  intros Hne. induction l as [|[k v] l IH]; simpl; [done|].
  destruct (String.eqb k key) eqn:E; simpl.
  - apply String.eqb_eq in E. subst k.
    assert (String.eqb key key' = false) as ->; [|done].
    apply String.eqb_neq. congruence.
  - destruct (String.eqb k key'); [done|]. apply IH.
Qed.

Lemma find_app_l {A} (f : A -> bool) (l1 l2 : list A) :
  List.find f (l1 ++ l2)%list
  = match List.find f l1 with Some x => Some x | None => List.find f l2 end.
Proof. induction l1 as [|a l1 IH]; simpl; [done|]. by destruct (f a). Qed.

Lemma without_without key (l : list (string * Cache.entry)) v :
  Cache.without key (Cache.without key l ++ [(key, v)])%list = Cache.without key l.
Proof.
  unfold Cache.without. rewrite List.filter_app. simpl.
  rewrite String.eqb_refl. simpl. rewrite app_nil_r.
  induction l as [|[k w] l IH]; simpl; [done|].
  destruct (String.eqb k key) eqn:E; simpl; [done|]. rewrite E. simpl. by rewrite IH.
Qed.

(** A recency refresh changes no lookup. *)
Lemma lookup_move_to_end key key' c :
  Cache.lookup key' (Cache.move_to_end key c) = Cache.lookup key' c.
Proof.
  unfold Cache.move_to_end. destruct (Cache.lookup key c) as [v|] eqn:E; [|done].
  unfold Cache.lookup in *. simpl. rewrite find_app_l.
  destruct (decide (key' = key)) as [->|Hne].
  - rewrite find_without_same. simpl. rewrite String.eqb_refl. by rewrite E.
  - rewrite find_without_other by done.
    destruct (List.find (fun kv => String.eqb kv.1 key') (Cache.items c)); [done|]. simpl.
    assert (String.eqb key key' = false) as ->; [|done].
    apply String.eqb_neq. congruence.
Qed.

(** It keeps the other entries, in their order. *)
Lemma without_move_to_end key c :
  Cache.without key (Cache.items (Cache.move_to_end key c))
  = Cache.without key (Cache.items c).
Proof.
  unfold Cache.move_to_end. destruct (Cache.lookup key c); [|done].
  simpl. apply without_without.
Qed.

Lemma move_to_end_idem key c :
  Cache.move_to_end key (Cache.move_to_end key c) = Cache.move_to_end key c.
Proof.
  unfold Cache.move_to_end at 1. rewrite lookup_move_to_end.
  unfold Cache.move_to_end. destruct (Cache.lookup key c) as [v|] eqn:E.
  - simpl. by rewrite without_without.
  - by destruct c.
Qed.

(** ** The GitHub resolver *)

Lemma get_self_run {P} (s : State P) : get_self s = (Return (self s), s).
Proof. done. Qed.

Lemma cache_get_run {P} key (s : State P) :
  cache_get key s
  = (Return (Cache.lookup key (cache s)),
     mkState (self s) (Cache.move_to_end key (cache s)) (trace s ++ [EvCacheGet key])%list).
Proof. done. Qed.

Ltac run H := rewrite (bind_Return _ _ _ _ _ H); cbv beta iota.

(** C2, as amended. When the API URL of a GitHub resolution has a cache
    entry and the request made with its etag is answered with a 304 whose
    rate-limit headers can be read, [get_resolved_ref] returns the cached
    sha and stores it on the instance; the cache is left with that entry
    refreshed: no [set] takes place, every lookup is what it was and the
    other entries keep their order. *)
Theorem github_not_modified_returns_cached_sha :
  forall url_concat fetch (now : Q) (s : State GitHubRepoProvider.t) c resp
         remaining rate_limit reset_timestamp,
    let p := self s in
    let api_url := GitHubRepoProvider.api_url p in
    GitHubRepoProvider.resolved_ref p = None ->
    Cache.lookup api_url (cache s) = Some c ->
    fetch (GitHubRepoProvider.request url_concat (GitHubRepoProvider.auth p) api_url
             (Cache.etag c))
    = Raise (HTTPError 304 (Some resp)) ->
    code resp = 304%Z ->
    reads_rate_limit now (headers resp) remaining rate_limit reset_timestamp ->
    exists tr,
      GitHubRepoProvider.get_resolved_ref url_concat fetch now s
      = (Return (Cache.sha c),
         mkState (GitHubRepoProvider.with_resolved_ref p (Cache.sha c))
                 (Cache.move_to_end api_url (cache s))
                 (trace s ++ tr)%list)
      /\ Forall (fun ev => ~ is_cache_set ev) tr
      /\ (forall key,
            Cache.lookup key (Cache.move_to_end api_url (cache s))
            = Cache.lookup key (cache s))
      /\ Cache.without api_url (Cache.items (Cache.move_to_end api_url (cache s)))
         = Cache.without api_url (Cache.items (cache s)).
Proof.
  intros url_concat fetch now s c resp remaining rate_limit reset_timestamp p api_url
    Hmemo Hc Hf Hcode Hr.
  eexists. split; [|split; [|split]].
  - unfold GitHubRepoProvider.get_resolved_ref.
    run (get_self_run s). fold p. rewrite Hmemo. fold api_url.
    run (emit_run (EvLog Debug) s).
    run (cache_get_run api_url (add_trace s [EvLog Debug])).
    cbn [cache add_trace self trace]. rewrite Hc.
    match goal with |- bind _ _ ?s1 = _ =>
      rewrite (bind_Return _ _ s1 (Cache.etag c) (add_trace s1 [EvLog Debug]))
        by reflexivity
    end.
    match goal with |- bind _ _ ?s1 = _ =>
      run (github_api_request_not_modified url_concat fetch now _ _ _ _ _ _ _ s1 Hf Hr)
    end.
    rewrite Hcode. simpl (304 =? 304)%Z. cbv iota.
    cbv beta iota delta [bind emit GitHubRepoProvider.set_resolved_ref get_self set_self
      cache_move_to_end ret add_trace self cache trace].
    fold p. rewrite move_to_end_idem.
    repeat rewrite <- app_assoc. reflexivity.
  - repeat constructor; simpl; tauto.
  - intros key. apply lookup_move_to_end.
  - apply without_move_to_end.
Qed.

(** The first steps of a GitHub resolution, up to the request. *)
Ltac github_to_request s Hmemo :=
  unfold GitHubRepoProvider.get_resolved_ref;
  run (get_self_run s); rewrite Hmemo;
  run (emit_run (EvLog Debug) s);
  run (cache_get_run (GitHubRepoProvider.api_url (self s)) (add_trace s [EvLog Debug]));
  cbn [cache add_trace self trace].

Ltac gist_to_request s Hmemo :=
  unfold GistRepoProvider.get_resolved_ref;
  run (get_self_run s); rewrite Hmemo;
  run (emit_run (EvLog Debug) s).






(** ** The Gist resolver *)

Lemma str_in_list_In s l : str_in_list s l = true <-> In (VStr s) l.
Proof.
  unfold str_in_list. rewrite existsb_exists. split.
  - intros (v & Hin & Hv). destruct v; try done.
    simpl in Hv. apply String.eqb_eq in Hv. by subst.
  - intros Hin. exists (VStr s). split; [done|]. simpl. apply String.eqb_refl.
Qed.

Ltac run_lift H :=
  match goal with
  | |- context [bind (lift ?r) ?k ?s1] =>
      rewrite (bind_Return (lift r) k s1 _ s1 (f_equal (fun x => (x, s1)) H))
  end; cbv beta iota.

Lemma passes_gate_not_forbidden p ref_info :
  passes_gate p ref_info -> GistRepoProvider.is_forbidden p ref_info = Return false.
Proof.
  unfold GistRepoProvider.is_forbidden, passes_gate.
  destruct (GistRepoProvider.allow_secret_gist p); [done|].
  intros [?|(public & Hp & Ht)]; [done|]. simpl. rewrite Hp. simpl. by rewrite Ht.
Qed.

Lemma gist_resolution_selects url_concat fetch now (s : State GistRepoProvider.t)
    resp remaining rate_limit reset_timestamp ref_info versions :
  let p := self s in
  let req := GitHubRepoProvider.request url_concat (GistRepoProvider.auth p)
               (GistRepoProvider.api_url p) None in
  GistRepoProvider.resolved_ref p = None ->
  fetch req = Return resp ->
  reads_rate_limit now (headers resp) remaining rate_limit reset_timestamp ->
  body resp = Some ref_info ->
  gist_metadata ref_info versions ->
  passes_gate p ref_info ->
  GistRepoProvider.get_resolved_ref url_concat fetch now s
  = gist_selection p versions
      (add_trace s [EvLog Debug; EvFetch req; EvGauge remaining;
                    EvLog (GitHubRepoProvider.rate_limit_level remaining rate_limit)]).
Proof.
  intros p req Hmemo Hf Hr Hbody (m & hs & -> & Hhist & Hvs) Hgate. subst p req.
  gist_to_request s Hmemo.
  match goal with |- bind _ _ ?s1 = _ =>
    run (github_api_request_fetched url_concat fetch now _ _ _ _ _ _ _ s1 Hf Hr)
  end.
  rewrite add_trace_add_trace. cbn [app].
  assert (json_body resp = Return (VDict m)) as Hj
    by (unfold json_body; by rewrite Hbody).
  run_lift Hj.
  run_lift (passes_gate_not_forbidden _ _ Hgate).
  assert (subscript (VDict m) "history" = Return (VList hs)) as Hh
    by (simpl; by rewrite Hhist).
  run_lift Hh.
  assert (all_versions_of (VList hs) = Return versions) as Ha by done.
  run_lift Ha.
  unfold gist_selection.
  destruct ((String.length _ =? 0)%nat || String.eqb _ "master").
  - destruct versions as [|v rest]; [done|].
    cbv beta iota delta [bind GistRepoProvider.set_resolved_ref get_self set_self ret
      add_trace self cache trace]. reflexivity.
  - destruct (negb (str_in_list _ versions)); [done|].
    cbv beta iota delta [bind GistRepoProvider.set_resolved_ref get_self set_self ret
      add_trace self cache trace]. reflexivity.
Qed.

Lemma selects_newest ref :
  ref = "" \/ ref = "master" ->
  (String.length ref =? 0)%nat || String.eqb ref "master" = true.
Proof. by intros [-> | ->]. Qed.

Lemma selects_requested ref :
  ref <> "" -> ref <> "master" ->
  (String.length ref =? 0)%nat || String.eqb ref "master" = false.
Proof.
  intros H1 H2. apply orb_false_intro.
  - by destruct ref.
  - by apply String.eqb_neq.
Qed.

(** C7, as amended. When a Gist resolution fetches the metadata of the gist
    and the gist passes the gate on secret gists: with an empty unresolved
    ref or [master], and a history that is not empty, the resolved ref is
    the first entry of the history; with another unresolved ref, it is that
    ref when the history holds it, and the resolution returns the not-found
    value [None] when it does not. *)
Theorem gist_resolution_by_history :
  forall url_concat fetch (now : Q) (s : State GistRepoProvider.t) resp
         remaining rate_limit reset_timestamp ref_info versions,
    let p := self s in
    let ref := GistRepoProvider.unresolved_ref p in
    GistRepoProvider.resolved_ref p = None ->
    fetch (GitHubRepoProvider.request url_concat (GistRepoProvider.auth p)
             (GistRepoProvider.api_url p) None) = Return resp ->
    reads_rate_limit now (headers resp) remaining rate_limit reset_timestamp ->
    body resp = Some ref_info ->
    gist_metadata ref_info versions ->
    passes_gate p ref_info ->
    let run := GistRepoProvider.get_resolved_ref url_concat fetch now s in
    (ref = "" \/ ref = "master" ->
     forall v rest, versions = v :: rest ->
       run.1 = Return v /\ self run.2 = GistRepoProvider.with_resolved_ref p v)
    /\ (ref <> "" -> ref <> "master" -> In (VStr ref) versions ->
        run.1 = Return (VStr ref)
        /\ self run.2 = GistRepoProvider.with_resolved_ref p (VStr ref))
    /\ (ref <> "" -> ref <> "master" -> ~ In (VStr ref) versions ->
        run.1 = Return VNone /\ self run.2 = p).
Proof.
  intros url_concat fetch now s resp remaining rate_limit reset_timestamp ref_info
    versions p ref Hmemo Hf Hr Hbody Hmeta Hgate run.
  subst run.
  rewrite (gist_resolution_selects url_concat fetch now s resp remaining rate_limit
             reset_timestamp ref_info versions Hmemo Hf Hr Hbody Hmeta Hgate).
  unfold gist_selection. fold p. fold ref. split; [|split].
  - intros Href v rest ->. by rewrite selects_newest.
  - intros H1 H2 Hin. rewrite selects_requested by done.
    apply str_in_list_In in Hin. by rewrite Hin.
  - intros H1 H2 Hin. rewrite selects_requested by done.
    destruct (str_in_list ref versions) eqn:E; [|done].
    by apply str_in_list_In in E.
Qed.

(** C10, as amended. When a Gist resolution with an empty unresolved ref or
    [master] fetches the metadata, the gist passes the gate on secret gists
    and the history of the metadata is the empty list, [get_resolved_ref]
    raises [IndexError] at the selection of the newest version: it returns
    neither the not-found value nor one of the errors the resolver raises
    itself. *)
Theorem gist_empty_history_raises_IndexError :
  forall url_concat fetch (now : Q) (s : State GistRepoProvider.t) resp
         remaining rate_limit reset_timestamp ref_info,
    let p := self s in
    let ref := GistRepoProvider.unresolved_ref p in
    GistRepoProvider.resolved_ref p = None ->
    fetch (GitHubRepoProvider.request url_concat (GistRepoProvider.auth p)
             (GistRepoProvider.api_url p) None) = Return resp ->
    reads_rate_limit now (headers resp) remaining rate_limit reset_timestamp ->
    body resp = Some ref_info ->
    gist_metadata ref_info [] ->
    passes_gate p ref_info ->
    ref = "" \/ ref = "master" ->
    (GistRepoProvider.get_resolved_ref url_concat fetch now s).1 = Raise IndexError.
Proof.
  intros url_concat fetch now s resp remaining rate_limit reset_timestamp ref_info
    p ref Hmemo Hf Hr Hbody Hmeta Hgate Href.
  rewrite (gist_resolution_selects url_concat fetch now s resp remaining rate_limit
             reset_timestamp ref_info [] Hmemo Hf Hr Hbody Hmeta Hgate).
  unfold gist_selection. fold p. fold ref. by rewrite selects_newest.
Qed.

(** ** What a resolution returns, and what it stores *)

Lemma bind_inv {P A B} (m : M P A) (k : A -> M P B) s b s' :
  bind m k s = (Return b, s') ->
  exists a s1, m s = (Return a, s1) /\ k a s1 = (Return b, s').
Proof.
  unfold bind. destruct (m s) as [[a|e] s1]; [|done]. intros H. by exists a, s1.
Qed.

Tactic Notation "inv_bind" hyp(H) "as" ident(a) ident(s1) ident(H1) :=
  apply bind_inv in H as (a & s1 & H1 & H).

(** The request reads the instance and the cache, and changes neither. *)
Lemma github_api_request_frame {P} url_concat fetch now auth api_url etag
    (s : State P) r s1 :
  GitHubRepoProvider.github_api_request url_concat fetch now auth api_url etag s = (r, s1) ->
  self s1 = self s /\ cache s1 = cache s
  /\ forall resp, r = Return (Some resp) -> answers fetch resp.
Proof.
  unfold GitHubRepoProvider.github_api_request, GitHubRepoProvider.try_fetch,
    GitHubRepoProvider.on_http_error, GitHubRepoProvider.rate_limited,
    GitHubRepoProvider.record_rate_limit, answers, bind, emit, lift, ret, raise.
  intros H.
  repeat (case_match; simplify_eq/=); (split; [done|split; [done|]]);
    intros resp' ?; simplify_eq; eexists; eauto.
Qed.
Lemma github_resolution_outcome url_concat fetch now (s : State GitHubRepoProvider.t) v s' :
  GitHubRepoProvider.get_resolved_ref url_concat fetch now s = (Return v, s') ->
  (v = VNone \/ GitHubRepoProvider.resolved_ref (self s') = Some v)
  /\ (v = VNone
      \/ GitHubRepoProvider.resolved_ref (self s) = Some v
      \/ (exists c, Cache.lookup (GitHubRepoProvider.api_url (self s)) (cache s) = Some c
                    /\ Cache.sha c = v)
      \/ (exists resp m, answers fetch resp /\ body resp = Some (VDict m)
                         /\ m !! "sha" = Some v)).
Proof.
  intros H. unfold GitHubRepoProvider.get_resolved_ref in H.
  inv_bind H as p s0 H0. unfold get_self in H0. simplify_eq.
  destruct (GitHubRepoProvider.resolved_ref (self s0)) as [v0|] eqn:Hmemo.
  { unfold ret in H. simplify_eq. split; [by right|]. right; by left. }
  set (api_url := GitHubRepoProvider.api_url (self s0)) in *. clearbody api_url.
  inv_bind H as u1 s1 H1. unfold emit in H1. simplify_eq.
  inv_bind H as cached s2 H2. unfold cache_get in H2. simpl in H2. simplify_eq.
  inv_bind H as etag s3 H3.
  assert (self s3 = self s0 /\ cache s3 = Cache.move_to_end api_url (cache s0))
    as [Hself Hcache].
  { destruct (Cache.lookup api_url (cache s0)).
    - inv_bind H3 as u s4 H4. unfold emit, ret in *. by simplify_eq.
    - unfold ret in *. by simplify_eq. }
  clear H3.
  inv_bind H as r s4 H4. apply github_api_request_frame in H4 as (Hs4 & Hc4 & Hans).
  destruct r as [resp|]; [|unfold ret in H; simplify_eq; split; by left].
  specialize (Hans resp eq_refl).
  destruct (code resp =? 304)%Z.
  - destruct (Cache.lookup api_url (cache s0)) as [c|] eqn:Hc; [|done].
    unfold bind, emit, GitHubRepoProvider.set_resolved_ref, get_self, set_self,
      cache_move_to_end, ret in H. simpl in H. simplify_eq. simpl.
    split; [by right|]. right; right; left. by exists c.
  - inv_bind H as u5 s5 H5. clear H5.
    inv_bind H as ref_info s6 H6. unfold lift, json_body in H6.
    destruct (body resp) as [ref_info'|] eqn:Hb; [|done]. simplify_eq.
    inv_bind H as has_sha s7 H7. unfold lift in H7. simplify_eq.
    destruct (negb has_sha).
    + unfold bind, emit, GitHubRepoProvider.set_resolved_ref, get_self, set_self, ret in H.
      simpl in H. simplify_eq. split; by left.
    + inv_bind H as sha s8 H8. unfold lift, subscript in H8.
      destruct ref_info as [| | | | |m]; try done.
      destruct (m !! "sha") as [sha'|] eqn:Hsha; [|done]. simplify_eq.
      unfold bind, GitHubRepoProvider.set_resolved_ref, get_self, set_self, cache_set, ret in H.
      simpl in H. simplify_eq. simpl.
      split; [by right|]. right; right; right. by exists resp, m.
Qed.

Lemma versions_head_In (versions : list value) v rest : versions = v :: rest -> In v versions.
Proof. intros ->. by left. Qed.

Lemma gist_resolution_outcome url_concat fetch now (s : State GistRepoProvider.t) v s' :
  GistRepoProvider.get_resolved_ref url_concat fetch now s = (Return v, s') ->
  (v = VNone \/ GistRepoProvider.resolved_ref (self s') = Some v)
  /\ (v = VNone
      \/ GistRepoProvider.resolved_ref (self s) = Some v
      \/ (exists resp ref_info history versions,
            answers fetch resp /\ body resp = Some ref_info
            /\ subscript ref_info "history" = Return history
            /\ all_versions_of history = Return versions
            /\ In v versions)).
Proof.
  intros H. unfold GistRepoProvider.get_resolved_ref in H.
  inv_bind H as p s0 H0. unfold get_self in H0. simplify_eq.
  destruct (GistRepoProvider.resolved_ref (self s0)) as [v0|] eqn:Hmemo.
  { unfold ret in H. simplify_eq. split; [by right|]. right; by left. }
  inv_bind H as u1 s1 H1. unfold emit in H1. simplify_eq.
  inv_bind H as r s2 H2. apply github_api_request_frame in H2 as (Hs2 & Hc2 & Hans).
  destruct r as [resp|]; [|unfold ret in H; simplify_eq; split; by left].
  specialize (Hans resp eq_refl).
  inv_bind H as ref_info s3 H3. unfold lift, json_body in H3.
  destruct (body resp) as [ref_info'|] eqn:Hb; [|done]. simplify_eq.
  inv_bind H as forbidden s4 H4. unfold lift in H4. simplify_eq.
  destruct forbidden; [done|].
  inv_bind H as history s5 H5. unfold lift in H5. simplify_eq.
  inv_bind H as versions s6 H6. unfold lift in H6. simplify_eq.
  destruct ((String.length _ =? 0)%nat || String.eqb _ "master").
  - destruct versions as [|v1 rest] eqn:Hv; [done|].
    unfold bind, GistRepoProvider.set_resolved_ref, get_self, set_self, ret in H.
    simpl in H. simplify_eq. simpl.
    split; [by right|]. right; right.
    exists resp, ref_info, history, (v :: rest). repeat split; try done. by left.
  - destruct (str_in_list _ versions) eqn:Hin; simpl in H.
    + unfold bind, GistRepoProvider.set_resolved_ref, get_self, set_self, ret in H.
      simpl in H. simplify_eq. simpl.
      split; [by right|]. right; right.
      exists resp, ref_info, history, versions. repeat split; try done.
      by apply str_in_list_In.
    + unfold ret in H. simplify_eq. split; by left.
Qed.

Lemma gitlab_resolution_outcome quote url_concat fetch (s : State GitLabRepoProvider.t) v s' :
  GitLabRepoProvider.get_resolved_ref quote url_concat fetch s = (Return v, s') ->
  (v = VNone \/ GitLabRepoProvider.resolved_ref (self s') = Some v)
  /\ (v = VNone
      \/ GitLabRepoProvider.resolved_ref (self s) = Some v
      \/ (exists resp m, answers fetch resp /\ body resp = Some (VDict m)
                         /\ m !! "id" = Some v)).
Proof.
  intros H. unfold GitLabRepoProvider.get_resolved_ref in H.
  inv_bind H as p s0 H0. unfold get_self in H0. simplify_eq.
  destruct (GitLabRepoProvider.resolved_ref (self s0)) as [v0|] eqn:Hmemo.
  { unfold ret in H. simplify_eq. split; [by right|]. right; by left. }
  inv_bind H as u1 s1 H1. unfold emit in H1. simplify_eq.
  inv_bind H as u2 s2 H2. unfold emit in H2. simplify_eq.
  destruct (fetch _) as [resp|e] eqn:Hf.
  - inv_bind H as ref_info s3 H3. unfold lift, json_body in H3.
    destruct (body resp) as [ref_info'|] eqn:Hb; [|done]. simplify_eq.
    inv_bind H as id s4 H4. unfold lift, subscript in H4.
    destruct ref_info as [| | | | |m]; try done.
    destruct (m !! "id") as [id'|] eqn:Hid; [|done]. simplify_eq.
    unfold bind, set_self, ret in H. simpl in H. simplify_eq. simpl.
    split; [by right|]. right; right. exists resp, m. split; [|done].
    eexists. by left.
  - destruct e; try done. destruct (status =? 404)%Z; [|done].
    unfold ret in H. simplify_eq. split; by left.
Qed.



(** C9, as amended. Once a call of [get_resolved_ref] on a GitHub, Gist or
    GitLab instance has returned a value other than the not-found value
    [None], every later call on the instance returns that value whatever
    the client would answer, and leaves the instance, the cache and the
    trace as they are: no fetch, no cache access. *)
Theorem resolved_ref_is_memoized :
  (forall url_concat fetch (now : Q) (s : State GitHubRepoProvider.t) v s',
     GitHubRepoProvider.get_resolved_ref url_concat fetch now s = (Return v, s') ->
     v <> VNone ->
     forall url_concat' fetch' (now' : Q) c tr,
       GitHubRepoProvider.get_resolved_ref url_concat' fetch' now' (mkState (self s') c tr)
       = (Return v, mkState (self s') c tr))
  /\ (forall url_concat fetch (now : Q) (s : State GistRepoProvider.t) v s',
        GistRepoProvider.get_resolved_ref url_concat fetch now s = (Return v, s') ->
        v <> VNone ->
        forall url_concat' fetch' (now' : Q) c tr,
          GistRepoProvider.get_resolved_ref url_concat' fetch' now' (mkState (self s') c tr)
          = (Return v, mkState (self s') c tr))
  /\ (forall quote url_concat fetch (s : State GitLabRepoProvider.t) v s',
        GitLabRepoProvider.get_resolved_ref quote url_concat fetch s = (Return v, s') ->
        v <> VNone ->
        forall quote' url_concat' fetch' c tr,
          GitLabRepoProvider.get_resolved_ref quote' url_concat' fetch' (mkState (self s') c tr)
          = (Return v, mkState (self s') c tr)).
Proof.
  split; [|split].
  - intros url_concat fetch now s v s' Hrun Hv url_concat' fetch' now' c tr.
    destruct (github_resolution_outcome _ _ _ _ _ _ Hrun) as [[?|Hm] _]; [done|].
    unfold GitHubRepoProvider.get_resolved_ref, bind, get_self. simpl. by rewrite Hm.
  - intros url_concat fetch now s v s' Hrun Hv url_concat' fetch' now' c tr.
    destruct (gist_resolution_outcome _ _ _ _ _ _ Hrun) as [[?|Hm] _]; [done|].
    unfold GistRepoProvider.get_resolved_ref, bind, get_self. simpl. by rewrite Hm.
  - intros quote url_concat fetch s v s' Hrun Hv quote' url_concat' fetch' c tr.
    destruct (gitlab_resolution_outcome _ _ _ _ _ _ Hrun) as [[?|Hm] _]; [done|].
    unfold GitLabRepoProvider.get_resolved_ref, bind, get_self. simpl. by rewrite Hm.
Qed.

(** ** Instances and counterexamples *)

Lemma sample_reads_rate_limit :
  reads_rate_limit 1000 (rate_limit_headers "59" "60" "1130") 59 60 1130.
Proof.
  repeat split; try (eexists; split; reflexivity); by vm_compute.
Defined.



Lemma github_not_modified_returns_cached_sha_witness :
  exists tr,
    GitHubRepoProvider.get_resolved_ref sample_url_concat (answer not_modified) 1000
      (start sample_github sample_cache)
    = (Return (VStr sample_sha),
       mkState (GitHubRepoProvider.with_resolved_ref sample_github (VStr sample_sha))
               (Cache.move_to_end sample_api_url sample_cache) tr)
    /\ Forall (fun ev => ~ is_cache_set ev) tr.
Proof.
  destruct (github_not_modified_returns_cached_sha sample_url_concat (answer not_modified)
              1000 (start sample_github sample_cache) sample_entry
              (mkResponse 304 (rate_limit_headers "59" "60" "1130") None) 59 60 1130
              eq_refl eq_refl eq_refl eq_refl sample_reads_rate_limit)
    as (tr & Hrun & Hset & _).
  exists tr. split; [exact Hrun | exact Hset].
Defined.

(** C2, as stated, fails on a 304 that carries no rate-limit headers, as a
    server without rate limiting sends it: recording the quota raises
    [KeyError] and the cached sha is not returned. *)
Lemma not_modified_without_rate_limit_headers :
  Cache.lookup sample_api_url sample_cache = Some sample_entry
  /\ (GitHubRepoProvider.get_resolved_ref sample_url_concat
        (answer (Raise (HTTPError 304 (Some (mkResponse 304 ∅ None))))) 1000
        (start sample_github sample_cache)).1
     = Raise (KeyError "x-ratelimit-remaining").
Proof. split; reflexivity. Qed.



Lemma sample_gist_metadata public versions :
  gist_metadata (gist_document public versions) (VStr <$> versions).
Proof.
  eexists _, _. split; [reflexivity|]. split; [reflexivity|].
  induction versions as [|v vs IH]; [done|].
  cbn [fmap list_fmap versions_of] in *. rewrite IH. reflexivity.
Defined.

Lemma gist_resolution_by_history_witness :
  let run :=
    GistRepoProvider.get_resolved_ref sample_url_concat
      (answer (fetched (gist_document true [sample_sha; other_sha]))) 1000
      (start (sample_gist false "") (Cache.create 1024)) in
  run.1 = Return (VStr sample_sha)
  /\ self run.2 = GistRepoProvider.with_resolved_ref (sample_gist false "") (VStr sample_sha).
Proof.
  apply (proj1 (gist_resolution_by_history sample_url_concat
                  (answer (fetched (gist_document true [sample_sha; other_sha]))) 1000
                  (start (sample_gist false "") (Cache.create 1024))
                  (mkResponse 200 (rate_limit_headers "59" "60" "1130")
                     (Some (gist_document true [sample_sha; other_sha])))
                  59 60 1130 (gist_document true [sample_sha; other_sha])
                  (VStr <$> [sample_sha; other_sha])
                  eq_refl eq_refl sample_reads_rate_limit eq_refl
                  (sample_gist_metadata true [sample_sha; other_sha])
                  (or_intror (ex_intro _ (VBool true) (conj eq_refl eq_refl))))
           (or_introl eq_refl) (VStr sample_sha) [VStr other_sha] eq_refl).
Defined.

(** C7, as stated, fails on a secret gist when secret gists are not
    allowed: the metadata is fetched, and the resolution raises the
    [ValueError] of the gate instead of selecting a version. *)
Lemma secret_gist_is_refused :
  (GistRepoProvider.get_resolved_ref sample_url_concat
     (answer (fetched (gist_document false [sample_sha; other_sha]))) 1000
     (start (sample_gist false "") (Cache.create 1024))).1
  = Raise (ValueError GistRepoProvider.secret_gist_msg).
Proof. reflexivity. Qed.

Lemma gist_empty_history_raises_IndexError_witness :
  (GistRepoProvider.get_resolved_ref sample_url_concat
     (answer (fetched (gist_document true []))) 1000
     (start (sample_gist false "master") (Cache.create 1024))).1
  = Raise IndexError.
Proof.
  apply (gist_empty_history_raises_IndexError sample_url_concat
           (answer (fetched (gist_document true []))) 1000
           (start (sample_gist false "master") (Cache.create 1024))
           (mkResponse 200 (rate_limit_headers "59" "60" "1130")
              (Some (gist_document true [])))
           59 60 1130 (gist_document true [])
           eq_refl eq_refl sample_reads_rate_limit eq_refl
           (sample_gist_metadata true [])
           (or_intror (ex_intro _ (VBool true) (conj eq_refl eq_refl)))
           (or_intror eq_refl)).
Defined.




Lemma resolved_ref_is_memoized_witness :
  let first :=
    GitHubRepoProvider.get_resolved_ref sample_url_concat
      (answer (fetched sample_document)) 1000 (start sample_github (Cache.create 1024)) in
  first.1 = Return (VStr sample_sha)
  /\ GitHubRepoProvider.get_resolved_ref sample_url_concat
       (answer (Raise (HTTPError 404 None))) 2000 (mkState (self first.2) (cache first.2) [])
     = (Return (VStr sample_sha), mkState (self first.2) (cache first.2) []).
Proof.
  intros first. split; [reflexivity|].
  apply (proj1 resolved_ref_is_memoized sample_url_concat
           (answer (fetched sample_document)) 1000%Q
           (start sample_github (Cache.create 1024)) (VStr sample_sha) first.2).
  - reflexivity.
  - discriminate.
Defined.

(** C9, as stated, fails after a 404: the first call completes with the
    not-found value [None] and stores nothing, and the second call fetches
    again and returns the sha that exists by then. *)
Lemma not_found_is_not_memoized :
  let first :=
    GitHubRepoProvider.get_resolved_ref sample_url_concat
      (answer (Raise (HTTPError 404 None))) 1000
      (start sample_github (Cache.create 1024)) in
  let second :=
    GitHubRepoProvider.get_resolved_ref sample_url_concat
      (answer (fetched sample_document)) 2000
      (mkState (self first.2) (cache first.2) []) in
  first.1 = Return VNone
  /\ second.1 = Return (VStr sample_sha)
  /\ trace second.2
     = [EvLog Debug; EvCacheGet sample_api_url;
        EvFetch (mkRequest sample_api_url ∅ "BinderHub");
        EvGauge 59; EvLog Debug;
        EvCacheSet sample_api_url (Cache.mkEntry None (VStr sample_sha))].
Proof. split; [reflexivity|]. split; reflexivity. Qed.

(** C10, as stated, fails on a secret gist with an empty history when
    secret gists are not allowed: the gate raises its [ValueError] before
    any version is selected. *)
Lemma secret_gist_empty_history_is_refused :
  (GistRepoProvider.get_resolved_ref sample_url_concat
     (answer (fetched (gist_document false []))) 1000
     (start (sample_gist false "") (Cache.create 1024))).1
  = Raise (ValueError GistRepoProvider.secret_gist_msg)
  /\ ValueError GistRepoProvider.secret_gist_msg <> IndexError.
Proof. split; [reflexivity|discriminate]. Qed.

(** * Further properties *)

(** ** Suffixes *)

Lemma append_cons (c : ascii) (x y : string) : String c x +:+ y = String c (x +:+ y).
Proof. reflexivity. Qed.

Lemma length_app (a b : string) :
  String.length (a +:+ b) = (String.length a + String.length b)%nat.
Proof. induction a as [|c a IH]; simpl; [done|]. by rewrite IH. Qed.

Lemma substring_zero_length (s : string) : String.substring 0 (String.length s) s = s.
Proof. induction s as [|c s IH]; simpl; [done|]. by rewrite IH. Qed.

Lemma substring_app_prefix (t suf : string) :
  String.substring 0 (String.length t) (t +:+ suf) = t.
Proof.
  induction t as [|c t IH]; simpl.
  - by destruct suf.
  - by rewrite IH.
Qed.

Lemma substring_app_suffix (t suf : string) :
  String.substring (String.length t) (String.length suf) (t +:+ suf) = suf.
Proof. induction t as [|c t IH]; simpl; [apply substring_zero_length | done]. Qed.

Lemma substring_split (text : string) (i : nat) :
  (i <= String.length text)%nat ->
  text = String.substring 0 i text +:+ String.substring i (String.length text - i) text.
Proof.
  revert i. induction text as [|c text IH]; intros i Hi; simpl in *.
  - by destruct i.
  - destruct i as [|i]; simpl.
    + by rewrite substring_zero_length.
    + rewrite append_cons. f_equal. apply IH. lia.
Qed.

Lemma endswith_app (t suf : string) : Py.endswith (t +:+ suf) suf = true.
Proof.
  unfold Py.endswith. rewrite length_app.
  replace (String.length t + String.length suf - String.length suf)%nat
    with (String.length t) by lia.
  rewrite substring_app_suffix, String.eqb_refl.
  apply andb_true_intro. split; [|done]. apply Nat.leb_le. lia.
Qed.

Lemma endswith_inv (text suf : string) :
  Py.endswith text suf = true -> exists t, text = t +:+ suf.
Proof.
  unfold Py.endswith. intros H. apply andb_prop in H as [Hle Heq].
  apply Nat.leb_le in Hle. apply String.eqb_eq in Heq.
  exists (String.substring 0 (String.length text - String.length suf) text).
  pose proof (substring_split text (String.length text - String.length suf)) as Hs.
  replace (String.length text - (String.length text - String.length suf))%nat
    with (String.length suf) in Hs by lia.
  rewrite Heq in Hs. apply Hs. lia.
Qed.

Lemma strip_suffix_app (t suffix : string) :
  suffix <> "" -> strip_suffix (t +:+ suffix) suffix = t.
Proof.
  intros Hne. unfold strip_suffix. rewrite endswith_app.
  unfold Py.slice_to_neg. rewrite length_app.
  destruct (String.length suffix) as [|k] eqn:E; [by destruct suffix|].
  replace (String.length t + S k - S k)%nat with (String.length t) by lia.
  apply substring_app_prefix.
Qed.

(** X1. [strip_suffix] removes one occurrence of a suffix that is not
    empty, leaves alone a text that does not end with the suffix, and with
    the empty suffix returns the empty text ([text[:-0]] is [text[:0]]);
    [endswith] holds exactly of the texts [t + suffix]. *)
Theorem strip_suffix_cases :
  (forall t suffix, suffix <> "" -> strip_suffix (t +:+ suffix) suffix = t)
  /\ (forall text suffix, Py.endswith text suffix = false -> strip_suffix text suffix = text)
  /\ (forall text, strip_suffix text "" = "")
  /\ (forall text suffix, Py.endswith text suffix = true <-> exists t, text = t +:+ suffix).
Proof.
  split; [|split; [|split]].
  - apply strip_suffix_app.
  - intros text suffix H. unfold strip_suffix. by rewrite H.
  - intros text. unfold strip_suffix, Py.endswith. simpl.
    rewrite Nat.sub_0_r.
    assert (String.substring (String.length text) 0 text = "") as ->; [|done].
    induction text as [|c text IH]; simpl; [done|]. by destruct (String.length text).
  - intros text suffix. split; [apply endswith_inv|].
    intros [t ->]. apply endswith_app.
Qed.

Lemma strip_suffix_cases_witness :
  ".git" <> "" /\ strip_suffix ("binderhub" +:+ ".git") ".git" = "binderhub".
Proof.
  split; [discriminate|].
  apply (proj1 strip_suffix_cases "binderhub" ".git"). discriminate.
Defined.

(** ** Parsing the specs *)

Lemma contains_char_app c (a b : string) :
  Py.contains_char c (a +:+ b) = Py.contains_char c a || Py.contains_char c b.
Proof.
  induction a as [|x a IH]; [done|].
  rewrite append_cons. simpl. by destruct (Ascii.eqb x c).
Qed.

Lemma append_assoc (a b c : string) : (a +:+ b) +:+ c = a +:+ b +:+ c.
Proof. induction a as [|x a IH]; [done|]. rewrite !append_cons. by rewrite IH. Qed.

Lemma rcut_no_sep sep s : Py.contains_char sep s = false -> Py.rcut sep s = None.
Proof.
  induction s as [|a r IH]; simpl; [done|].
  destruct (Ascii.eqb a sep); [done|]. intros H. by rewrite IH.
Qed.

Lemma split_max_no_sep sep n s :
  Py.contains_char sep s = false -> Py.split_max sep n s = [s].
Proof. intros H. destruct n; [done|]. simpl. by rewrite cut_no_sep. Qed.

Lemma split_max_cons sep n u r :
  Py.contains_char sep u = false ->
  Py.split_max sep (S n) (u +:+ String sep r) = u :: Py.split_max sep n r.
Proof. intros H. cbn [Py.split_max]. by rewrite cut_first. Qed.

Lemma slash_cons (s : string) : "/" +:+ s = String "/" s.
Proof. reflexivity. Qed.

(** X2. What [tokenize_spec] returns is the spec cut at its first two
    slashes: three parts, the first two without a slash, which joined by
    slashes give the spec back. What it raises is a [ValueError], on the
    specs with fewer than two slashes only. *)
Theorem tokenize_spec_round_trip :
  forall spec,
    match tokenize_spec spec with
    | Return parts =>
        exists u r ref,
          parts = [u; r; ref] /\ no_slash u /\ no_slash r
          /\ spec = u +:+ "/" +:+ r +:+ "/" +:+ ref
          /\ Py.join "/" parts = spec
    | Raise e =>
        (exists msg, e = ValueError msg)
        /\ ((exists u r, no_slash u /\ no_slash r /\ spec = u +:+ "/" +:+ r)
            \/ no_slash spec)
    end.
Proof.
  intros spec.
  destruct (spec_shapes spec)
    as [(u & r & ref & Hu & Hr & ->)|[(u & r & Hu & Hr & ->)|Hs]].
  - unfold tokenize_spec. rewrite split_two_of_three by done. simpl.
    exists u, r, ref. repeat split; done.
  - unfold tokenize_spec. rewrite split_two_of_two by done. simpl.
    split; [by eexists|]. left. by exists u, r.
  - unfold tokenize_spec. rewrite split_two_of_one by done. simpl.
    split; [by eexists|]. by right.
Qed.

(** X3. The GitHub constructor takes the user, the repo and the ref from
    the first two slashes of the spec and strips one [.git] from the repo:
    for a repo name that does not end in [.git], the specs [u/r.git/ref]
    and [u/r/ref] give the same user, repo, ref, clone URL, build slug and
    API URL. A spec with fewer than two slashes is refused with a
    [ValueError]. *)
Theorem github_init_strips_git_suffix :
  forall hostname auth,
    (forall u r ref, no_slash u -> no_slash r ->
       let spec := u +:+ "/" +:+ r +:+ "/" +:+ ref in
       GitHubRepoProvider.init spec hostname auth
       = Return (GitHubRepoProvider.mk spec hostname auth u (strip_suffix r ".git") ref None))
    /\ (forall u r ref, no_slash u -> no_slash r -> Py.endswith r ".git" = false ->
          exists p q,
            GitHubRepoProvider.init (u +:+ "/" +:+ (r +:+ ".git") +:+ "/" +:+ ref)
              hostname auth = Return p
            /\ GitHubRepoProvider.init (u +:+ "/" +:+ r +:+ "/" +:+ ref) hostname auth
               = Return q
            /\ GitHubRepoProvider.user p = u /\ GitHubRepoProvider.user q = u
            /\ GitHubRepoProvider.repo p = r /\ GitHubRepoProvider.repo q = r
            /\ GitHubRepoProvider.unresolved_ref p = ref
            /\ GitHubRepoProvider.unresolved_ref q = ref
            /\ GitHubRepoProvider.get_repo_url p = GitHubRepoProvider.get_repo_url q
            /\ GitHubRepoProvider.get_build_slug p = GitHubRepoProvider.get_build_slug q
            /\ GitHubRepoProvider.api_url p = GitHubRepoProvider.api_url q)
    /\ (forall spec,
          (exists u r, no_slash u /\ no_slash r /\ spec = u +:+ "/" +:+ r) \/ no_slash spec ->
          exists msg, GitHubRepoProvider.init spec hostname auth = Raise (ValueError msg)).
Proof.
  intros hostname auth.
  assert (forall u r ref, no_slash u -> no_slash r ->
            GitHubRepoProvider.init (u +:+ "/" +:+ r +:+ "/" +:+ ref) hostname auth
            = Return (GitHubRepoProvider.mk (u +:+ "/" +:+ r +:+ "/" +:+ ref) hostname auth
                        u (strip_suffix r ".git") ref None)) as Hinit.
  { intros u r ref Hu Hr. unfold GitHubRepoProvider.init, tokenize_spec.
    by rewrite split_two_of_three. }
  split; [exact Hinit|]. split.
  - intros u r ref Hu Hr Hend.
    assert (no_slash (r +:+ ".git")) as Hr'.
    { unfold no_slash in *. rewrite contains_char_app, Hr. reflexivity. }
    eexists _, _. split; [by apply Hinit|]. split; [by apply Hinit|].
    assert (strip_suffix (r +:+ ".git") ".git" = r) as E1 by (by apply strip_suffix_app).
    assert (strip_suffix r ".git" = r) as E2 by (unfold strip_suffix; by rewrite Hend).
    unfold GitHubRepoProvider.get_repo_url, GitHubRepoProvider.get_build_slug,
      GitHubRepoProvider.api_url.
    cbn [GitHubRepoProvider.user GitHubRepoProvider.repo GitHubRepoProvider.unresolved_ref
         GitHubRepoProvider.hostname].
    rewrite E1, E2. repeat split; reflexivity.
  - intros spec [(u & r & Hu & Hr & ->)|Hs]; unfold GitHubRepoProvider.init, tokenize_spec.
    + rewrite split_two_of_two by done. simpl. by eexists.
    + rewrite split_two_of_one by done. simpl. by eexists.
Qed.

Lemma github_init_strips_git_suffix_witness :
  GitHubRepoProvider.init ("jupyterhub" +:+ "/" +:+ "binderhub.git" +:+ "/" +:+ "feature/x")
    "github.com" []
  = Return (GitHubRepoProvider.mk "jupyterhub/binderhub.git/feature/x" "github.com" []
              "jupyterhub" "binderhub" "feature/x" None).
Proof.
  apply (proj1 (github_init_strips_git_suffix "github.com" [])
           "jupyterhub" "binderhub.git" "feature/x"); reflexivity.
Defined.

(** ** The sha1 check and the Git constructor *)

Lemma hex_prefix_split k s :
  RepoProvider.hex_prefix k s = true <->
  exists h rest, s = h +:+ rest /\ String.length h = k /\ RepoProvider.hex_prefix k h = true.
Proof.
  revert s. induction k as [|k IH]; intros s; simpl.
  - split; [|done]. intros _. by exists "", s.
  - destruct s as [|a s].
    + split; [done|]. intros (h & rest & Hs & Hlen & _). by destruct h.
    + split.
      * intros H. apply andb_prop in H as [Ha Hs]. apply IH in Hs as (h & rest & -> & Hlen & Hh).
        exists (String a h), rest. simpl. rewrite Hlen, Ha, Hh. done.
      * intros (h & rest & Hs & Hlen & Hh). destruct h as [|b h]; [done|].
        rewrite append_cons in Hs. injection Hs as -> ->.
        simpl in Hlen, Hh. apply andb_prop in Hh as [Hb Hh]. rewrite Hb. simpl.
        apply IH. exists h, rest. split; [done|]. split; [lia|done].
Qed.

Lemma hex_no_slash k s :
  RepoProvider.hex_prefix k s = true -> String.length s = k -> no_slash s.
Proof.
  unfold no_slash. revert s. induction k as [|k IH]; intros s Hh Hlen.
  - by destruct s.
  - destruct s as [|a s]; [done|]. simpl in *.
    apply andb_prop in Hh as [Ha Hs].
    destruct (Ascii.eqb a "/") eqn:E.
    + apply Ascii.eqb_eq in E. subst a. discriminate Ha.
    + apply IH; [done|lia].
Qed.

(** X4. [sha1_validate] accepts exactly the strings that start with a
    resolved reference, 40 characters of [0-9a-f], whatever follows; on
    every other string it raises its [ValueError]. *)
Theorem sha1_validate_accepts_prefix :
  forall s,
    (RepoProvider.sha1_validate s = Return tt
     <-> exists h rest, s = h +:+ rest /\ is_sha1 h)
    /\ (RepoProvider.sha1_validate s = Return tt
        \/ RepoProvider.sha1_validate s
           = Raise (ValueError "resolved_ref is not a valid sha1 hexadecimal hash")).
Proof.
  intros s. unfold RepoProvider.sha1_validate, RepoProvider.SHA1_PATTERN_match, is_sha1.
  destruct (RepoProvider.hex_prefix 40 s) eqn:E; simpl.
  - split; [|by left]. split; [|done]. intros _.
    apply hex_prefix_split in E as (h & rest & -> & Hlen & Hh). by exists h, rest.
  - split; [|by right]. split; [done|].
    intros (h & rest & -> & Hlen & Hh).
    assert (RepoProvider.hex_prefix 40 (h +:+ rest) = true) as E'
      by (apply hex_prefix_split; by exists h, rest).
    congruence.
Qed.

(** X5. The Git constructor, case by case: a spec without a slash fails at
    the unpacking of [rsplit]; an empty trailing component is refused with
    the [ValueError] asking for a [resolved_ref]; a trailing component that
    does not start with 40 characters of [0-9a-f] is refused by
    [sha1_validate]; a resolved reference is accepted after any text, which
    may hold slashes, and the provider then resolves to that reference, its
    clone URL and build slug being the unquoted text. *)
Theorem git_init_cases :
  forall unquote : string -> string,
    (forall spec, no_slash spec -> GitRepoProvider.init unquote spec = Raise UnpackError)
    /\ (forall url,
          GitRepoProvider.init unquote (url +:+ "/")
          = Raise (ValueError
              "`resolved_ref` must be specified as a query parameter for the basic git provider"))
    /\ (forall url ref, no_slash ref -> ref <> "" ->
          RepoProvider.SHA1_PATTERN_match ref = false ->
          GitRepoProvider.init unquote (url +:+ "/" +:+ ref)
          = Raise (ValueError "resolved_ref is not a valid sha1 hexadecimal hash"))
    /\ (forall url ref, is_sha1 ref ->
          exists p,
            GitRepoProvider.init unquote (url +:+ "/" +:+ ref) = Return p
            /\ GitRepoProvider.get_resolved_ref p = Return (VStr ref)
            /\ GitRepoProvider.unresolved_ref p = ref
            /\ GitRepoProvider.get_repo_url p = unquote url
            /\ GitRepoProvider.get_build_slug p = unquote url).
Proof.
  intros unquote. split; [|split; [|split]].
  - intros spec Hs. unfold GitRepoProvider.init, Py.rsplit1. by rewrite rcut_no_sep.
  - intros url. unfold GitRepoProvider.init, Py.rsplit1.
    change (url +:+ "/") with (url +:+ String "/" ""). by rewrite rcut_last.
  - intros url ref Href Hne Hsha. unfold GitRepoProvider.init, Py.rsplit1.
    rewrite slash_cons, rcut_last by done.
    destruct ref as [|a ref]; [done|]. cbn [String.eqb].
    unfold RepoProvider.sha1_validate. by rewrite Hsha.
  - intros url ref [Hlen Hhex].
    exists (GitRepoProvider.mk (url +:+ "/" +:+ ref) (unquote url) ref ref).
    split; [|done].
    apply git_init_accepts; [|done]. by apply hex_no_slash with (k := 40%nat).
Qed.

Lemma git_init_cases_witness :
  exists p,
    GitRepoProvider.init (fun s => s) ("https%3A%2F%2Fexample.org%2Frepo" +:+ "/" +:+ sample_sha)
    = Return p
    /\ GitRepoProvider.get_resolved_ref p = Return (VStr sample_sha).
Proof.
  destruct (proj2 (proj2 (proj2 (git_init_cases (fun s => s))))
              "https%3A%2F%2Fexample.org%2Frepo" sample_sha)
    as (p & Hp & Hr & _).
  { split; reflexivity. }
  exists p. split; [exact Hp | exact Hr].
Defined.

(** ** The Gist and GitLab constructors, the GitLab build slug *)

Lemma split_first sep (u r : string) :
  Py.contains_char sep u = false ->
  Py.split sep (u +:+ String sep r)
  = u :: Py.split_max sep (String.length u + String.length r) r.
Proof.
  intros Hu. unfold Py.split. rewrite length_app. simpl String.length.
  replace (String.length u + S (String.length r))%nat
    with (S (String.length u + String.length r)) by lia.
  by apply split_max_cons.
Qed.

(** X6. The Gist constructor splits the spec at every slash: the user and
    the gist id are the first two parts, the unresolved ref is the third
    part, empty when there is none, and whatever follows a third slash is
    dropped. A spec without a slash fails at the unpacking. *)
Theorem gist_init_cases :
  forall auth allow_secret_gist,
    (forall spec, no_slash spec ->
       GistRepoProvider.init spec auth allow_secret_gist = Raise UnpackError)
    /\ (forall u id, no_slash u -> no_slash id ->
          let spec := u +:+ "/" +:+ id in
          GistRepoProvider.init spec auth allow_secret_gist
          = Return (GistRepoProvider.mk spec auth allow_secret_gist u id "" None))
    /\ (forall u id ref, no_slash u -> no_slash id -> no_slash ref ->
          let spec := u +:+ "/" +:+ id +:+ "/" +:+ ref in
          GistRepoProvider.init spec auth allow_secret_gist
          = Return (GistRepoProvider.mk spec auth allow_secret_gist u id ref None))
    /\ (forall u id ref rest, no_slash u -> no_slash id -> no_slash ref ->
          let spec := u +:+ "/" +:+ id +:+ "/" +:+ ref +:+ "/" +:+ rest in
          GistRepoProvider.init spec auth allow_secret_gist
          = Return (GistRepoProvider.mk spec auth allow_secret_gist u id ref None)).
Proof.
  intros auth allow. split; [|split; [|split]].
  - intros spec Hs. unfold GistRepoProvider.init, Py.split.
    by rewrite split_max_no_sep.
  - intros u id Hu Hid spec. subst spec. unfold GistRepoProvider.init.
    rewrite slash_cons, split_first by done. by rewrite split_max_no_sep.
  - intros u id ref Hu Hid Href spec. subst spec. unfold GistRepoProvider.init.
    rewrite !slash_cons, split_first by done.
    rewrite length_app. simpl String.length.
    replace (String.length u + (String.length id + S (String.length ref)))%nat
      with (S (String.length u + String.length id + String.length ref)) by lia.
    rewrite split_max_cons by done. by rewrite split_max_no_sep.
  - intros u id ref rest Hu Hid Href spec. subst spec. unfold GistRepoProvider.init.
    rewrite !slash_cons, split_first by done.
    rewrite !length_app. simpl String.length. rewrite length_app. simpl String.length.
    replace (String.length u
             + (String.length id + S (String.length ref + S (String.length rest))))%nat
      with (S (S (String.length u + String.length id + String.length ref
                  + String.length rest))) by lia.
    rewrite split_max_cons by done. by rewrite split_max_cons.
Qed.

Lemma gist_init_cases_witness :
  GistRepoProvider.init ("minrk" +:+ "/" +:+ "8f1c" +:+ "/" +:+ "master" +:+ "/" +:+ "x/y")
    [] false
  = Return (GistRepoProvider.mk "minrk/8f1c/master/x/y" [] false "minrk" "8f1c" "master" None).
Proof.
  apply (proj2 (proj2 (proj2 (gist_init_cases [] false)))
           "minrk" "8f1c" "master" "x/y"); reflexivity.
Defined.

(** X7. The GitLab constructor cuts the spec at its first slash and
    unquotes both halves, so that the ref may hold slashes: it fails at the
    unpacking when there is no slash and with the [ValueError] asking for a
    ref when the unquoted ref is empty. *)
Theorem gitlab_init_cases :
  forall (unquote : string -> string) hostname auth,
    (forall spec, no_slash spec ->
       GitLabRepoProvider.init unquote spec hostname auth = Raise UnpackError)
    /\ (forall ns ref, no_slash ns -> unquote ref = "" ->
          GitLabRepoProvider.init unquote (ns +:+ "/" +:+ ref) hostname auth
          = Raise (ValueError "An unresolved ref is required"))
    /\ (forall ns ref, no_slash ns -> unquote ref <> "" ->
          let spec := ns +:+ "/" +:+ ref in
          GitLabRepoProvider.init unquote spec hostname auth
          = Return (GitLabRepoProvider.mk spec hostname auth (unquote ns) (unquote ref) None)).
Proof.
  intros unquote hostname auth. split; [|split].
  - intros spec Hs. unfold GitLabRepoProvider.init. by rewrite split_max_no_sep.
  - intros ns ref Hns Href. unfold GitLabRepoProvider.init.
    rewrite slash_cons, split_max_cons by done. cbn [Py.split_max]. by rewrite Href.
  - intros ns ref Hns Href spec. subst spec. unfold GitLabRepoProvider.init.
    rewrite slash_cons, split_max_cons by done. cbn [Py.split_max].
    apply String.eqb_neq in Href. by rewrite Href.
Qed.

Lemma gitlab_init_cases_witness :
  GitLabRepoProvider.init (fun s => s) ("group%2Fproject" +:+ "/" +:+ "feature/x")
    "gitlab.com" []
  = Return (GitLabRepoProvider.mk "group%2Fproject/feature/x" "gitlab.com" []
              "group%2Fproject" "feature/x" None).
Proof.
  apply (proj2 (proj2 (gitlab_init_cases (fun s => s) "gitlab.com" []))
           "group%2Fproject" "feature/x"); [reflexivity | discriminate].
Defined.

Lemma cut_shorter sep s x y :
  Py.cut sep s = Some (x, y) ->
  (String.length y < String.length s)%nat /\ Py.contains_char sep x = false.
Proof.
  intros H. pose proof (cut_shape sep s) as Hs. rewrite H in Hs.
  destruct Hs as [-> Hx]. split; [|done]. rewrite length_app. simpl. lia.
Qed.

Lemma split_max_parts sep n s :
  (String.length s <= n)%nat ->
  Forall (fun part => Py.contains_char sep part = false) (Py.split_max sep n s).
Proof.
  revert s. induction n as [|n IH]; intros s Hlen.
  - destruct s; [|simpl in Hlen; lia]. by repeat constructor.
  - cbn [Py.split_max]. destruct (Py.cut sep s) as [[x y]|] eqn:E.
    + apply cut_shorter in E as [Hy Hx]. constructor; [done|]. apply IH. lia.
    + pose proof (cut_shape sep s) as Hs. rewrite E in Hs. by repeat constructor.
Qed.

Lemma replace_char_app old new (a b : string) :
  Py.replace_char old new (a +:+ b)
  = Py.replace_char old new a +:+ Py.replace_char old new b.
Proof.
  induction a as [|c a IH]; [done|].
  rewrite append_cons. cbn [Py.replace_char]. by rewrite IH, append_assoc.
Qed.

Lemma replace_char_absent old new (s : string) :
  Py.contains_char old s = false -> Py.replace_char old new s = s.
Proof.
  induction s as [|c s IH]; simpl; [done|].
  destruct (Ascii.eqb c old); [done|]. intros H. by rewrite IH.
Qed.

Lemma replace_char_keeps_out c old new (s : string) :
  Py.contains_char c new = false -> Py.contains_char c s = false ->
  Py.contains_char c (Py.replace_char old new s) = false.
Proof.
  intros Hnew. induction s as [|a s IH]; simpl; [done|].
  destruct (Ascii.eqb a c) eqn:E; [done|]. intros Hs.
  rewrite contains_char_app, IH by done.
  destruct (Ascii.eqb a old); [by rewrite Hnew|]. simpl. by rewrite E.
Qed.

Lemma join_keeps_out c sep (parts : list string) :
  Py.contains_char c sep = false ->
  Forall (fun part => Py.contains_char c part = false) parts ->
  Py.contains_char c (Py.join sep parts) = false.
Proof.
  intros Hsep Hparts. induction Hparts as [|p parts Hp _ IH]; [done|].
  destruct parts as [|q parts]; [done|].
  change (Py.join sep (p :: q :: parts)) with (p +:+ sep +:+ Py.join sep (q :: parts)).
  by rewrite !contains_char_app, Hp, Hsep, IH.
Qed.

(** X8. The build slug of a GitLab provider never holds a slash, and is the
    namespace itself when the namespace holds neither a slash nor a dash.
    It does not tell every two namespaces apart: [x_/y] and [x-y] have the
    slug [x_-y], for all [x] and [y] free of slashes and dashes. *)
Theorem gitlab_build_slug :
  (forall p, no_slash (GitLabRepoProvider.get_build_slug p))
  /\ (forall p,
        no_slash (GitLabRepoProvider.namespace p) ->
        Py.contains_char "-" (GitLabRepoProvider.namespace p) = false ->
        GitLabRepoProvider.get_build_slug p = GitLabRepoProvider.namespace p)
  /\ (forall p q x y,
        no_slash x -> no_slash y ->
        Py.contains_char "-" x = false -> Py.contains_char "-" y = false ->
        GitLabRepoProvider.namespace p = x +:+ "_/" +:+ y ->
        GitLabRepoProvider.namespace q = x +:+ "-" +:+ y ->
        GitLabRepoProvider.namespace p <> GitLabRepoProvider.namespace q
        /\ GitLabRepoProvider.get_build_slug p = x +:+ "_-" +:+ y
        /\ GitLabRepoProvider.get_build_slug q = x +:+ "_-" +:+ y).
Proof.
  split; [|split].
  - intros p. unfold no_slash, GitLabRepoProvider.get_build_slug.
    apply join_keeps_out; [done|]. apply Forall_fmap.
    eapply Forall_impl; [apply split_max_parts; lia|].
    intros part Hpart. simpl. by apply replace_char_keeps_out.
  - intros p Hslash Hdash. unfold GitLabRepoProvider.get_build_slug, Py.split.
    rewrite split_max_no_sep by done. simpl. by apply replace_char_absent.
  - intros p q x y Hx Hy Hdx Hdy Hp Hq. split; [|split].
    + rewrite Hp, Hq. intros Heq.
      apply (f_equal (Py.contains_char "/")) in Heq.
      rewrite !contains_char_app in Heq. unfold no_slash in *.
      rewrite Hx, Hy in Heq. discriminate Heq.
    + unfold GitLabRepoProvider.get_build_slug. rewrite Hp.
      change (x +:+ "_/" +:+ y) with (x +:+ "_" +:+ String "/" y).
      rewrite <- append_assoc.
      rewrite split_first
        by (unfold no_slash in *; rewrite contains_char_app, Hx; reflexivity).
      rewrite split_max_no_sep by done. simpl.
      rewrite replace_char_absent
        by (rewrite contains_char_app, Hdx; reflexivity).
      rewrite (replace_char_absent _ _ y) by done.
      by rewrite append_assoc.
    + unfold GitLabRepoProvider.get_build_slug, Py.split. rewrite Hq.
      rewrite split_max_no_sep
        by (unfold no_slash in *; rewrite !contains_char_app, Hx, Hy; reflexivity).
      simpl. rewrite !replace_char_app.
      rewrite (replace_char_absent _ _ x), (replace_char_absent _ _ y) by done.
      reflexivity.
Qed.

Lemma gitlab_build_slug_witness :
  let p := GitLabRepoProvider.mk "" "gitlab.com" [] ("a" +:+ "_/" +:+ "b") "master" None in
  let q := GitLabRepoProvider.mk "" "gitlab.com" [] ("a" +:+ "-" +:+ "b") "master" None in
  GitLabRepoProvider.namespace p <> GitLabRepoProvider.namespace q
  /\ GitLabRepoProvider.get_build_slug p = "a" +:+ "_-" +:+ "b"
  /\ GitLabRepoProvider.get_build_slug q = "a" +:+ "_-" +:+ "b".
Proof.
  intros p q.
  apply (proj2 (proj2 gitlab_build_slug) p q "a" "b"); reflexivity.
Defined.

(** ** The policy, further *)






(** ** The GitHub request, further *)







Lemma github_api_request_trace {P} url_concat fetch (now : Q) auth api_url etag
    (s : State P) :
  exists tr,
    (GitHubRepoProvider.github_api_request url_concat fetch now auth api_url etag s).2
    = add_trace s (EvFetch (GitHubRepoProvider.request url_concat auth api_url etag) :: tr)
    /\ Forall (fun ev => ~ is_fetch ev /\ ~ is_cache_access ev) tr.
Proof.
  unfold GitHubRepoProvider.github_api_request, GitHubRepoProvider.try_fetch,
    GitHubRepoProvider.on_http_error, GitHubRepoProvider.rate_limited,
    GitHubRepoProvider.record_rate_limit, bind, emit, lift, ret, raise, add_trace.
  repeat (case_match; simplify_eq/=);
    (eexists; split;
     [ rewrite <- ?app_assoc; simpl; reflexivity
     | repeat constructor; simpl; tauto ]).
Qed.

(** X14. Whatever the client answers, [github_api_request] makes exactly
    one fetch, of the request built from its arguments, before anything
    else; it never retries, never accesses the cache and leaves the
    instance and the cache as they are. *)
Theorem github_api_request_fetches_once :
  forall (P : Type) url_concat fetch (now : Q) auth api_url etag (s : State P),
    let run := GitHubRepoProvider.github_api_request url_concat fetch now auth api_url etag s in
    self run.2 = self s
    /\ cache run.2 = cache s
    /\ exists tr,
         trace run.2
         = (trace s ++ EvFetch (GitHubRepoProvider.request url_concat auth api_url etag) :: tr)%list
         /\ Forall (fun ev => ~ is_fetch ev /\ ~ is_cache_access ev) tr.
Proof.
  intros P url_concat fetch now auth api_url etag s run.
  destruct (github_api_request_trace url_concat fetch now auth api_url etag s)
    as (tr & Hrun & Hno).
  subst run. rewrite Hrun. unfold add_trace. cbn [self cache trace].
  split; [done|]. split; [done|]. by exists tr.
Qed.

(** ** The GitHub resolver, further *)

Lemma find_tail_without key x (rest : list (string * Cache.entry)) l :
  Cache.without key l = x :: rest ->
  List.find (fun kv => String.eqb kv.1 key) rest = None.
Proof.
  intros H. pose proof (find_without_same key l) as Hf. rewrite H in Hf.
  simpl in Hf. by destruct (String.eqb x.1 key).
Qed.

(** What [set] stores can be looked up, in a cache that holds one entry at
    least. *)
Lemma lookup_set_same key v c :
  (1 <= Cache.max_size c)%nat -> Cache.lookup key (Cache.set key v c) = Some v.
Proof.
  intros Hmax. unfold Cache.set, Cache.lookup. cbn [Cache.items].
  destruct (Cache.max_size c <? length (Cache.without key (Cache.items c) ++ [(key, v)]))%nat
    eqn:E.
  - destruct (Cache.without key (Cache.items c)) as [|x rest] eqn:Hw.
    + simpl in E. apply Nat.ltb_lt in E. lia.
    + simpl. rewrite find_app_l, (find_tail_without key x rest _ Hw). simpl.
      by rewrite String.eqb_refl.
  - rewrite find_app_l, find_without_same. simpl. by rewrite String.eqb_refl.
Qed.

Ltac github_etag_at c s1 :=
  first
    [ rewrite (bind_Return _ _ s1 (Cache.etag c) (add_trace s1 [EvLog Debug]))
        by reflexivity
    | rewrite (bind_Return _ _ s1 None s1) by reflexivity ].

Ltac github_etag_step c Hc :=
  rewrite Hc;
  match goal with
  | |- bind _ _ ?s1 = _ => github_etag_at c s1
  | |- (bind _ _ ?s1).1 = _ => github_etag_at c s1
  end.

(** The resolver after a response that is not a 304, from the state the
    request leaves. *)
Lemma github_resolution_fetched url_concat fetch now (s : State GitHubRepoProvider.t)
    resp remaining rate_limit reset_timestamp :
  let p := self s in
  let api_url := GitHubRepoProvider.api_url p in
  GitHubRepoProvider.resolved_ref p = None ->
  fetch (GitHubRepoProvider.request url_concat (GitHubRepoProvider.auth p) api_url
           (Cache.lookup api_url (cache s) ≫= Cache.etag)) = Return resp ->
  code resp <> 304%Z ->
  reads_rate_limit now (headers resp) remaining rate_limit reset_timestamp ->
  exists tr,
    GitHubRepoProvider.get_resolved_ref url_concat fetch now s
    = (ref_info <- lift (json_body resp);;
       has_sha <- lift (contains ref_info "sha");;
       if negb has_sha then
         emit (EvLog Warning);;
         GitHubRepoProvider.set_resolved_ref VNone;;
         ret VNone
       else
         sha <- lift (subscript ref_info "sha");;
         GitHubRepoProvider.set_resolved_ref sha;;
         cache_set api_url (Cache.mkEntry (headers resp !! "ETag") sha);;
         ret sha)%monad
        (mkState p (Cache.move_to_end api_url (cache s)) (trace s ++ tr)%list).
Proof.
  intros p api_url Hmemo Hf Hcode Hr. subst p api_url.
  apply Z.eqb_neq in Hcode.
  destruct (Cache.lookup _ (cache s)) as [c|] eqn:Hc; simpl in Hf.
  - eexists. github_to_request s Hmemo. github_etag_step c Hc.
    match goal with |- bind _ _ ?s1 = _ =>
      run (github_api_request_fetched url_concat fetch now _ _ _ _ _ _ _ s1 Hf Hr)
    end.
    rewrite Hcode. cbv iota.
    match goal with |- bind _ _ ?s1 = _ =>
      rewrite (bind_Return _ _ s1 tt (add_trace s1 [EvLog Debug])) by reflexivity
    end.
    unfold add_trace. cbn [self cache trace]. rewrite <- !app_assoc. reflexivity.
  - eexists. github_to_request s Hmemo. github_etag_step c Hc.
    match goal with |- bind _ _ ?s1 = _ =>
      run (github_api_request_fetched url_concat fetch now _ _ _ _ _ _ _ s1 Hf Hr)
    end.
    rewrite Hcode. cbv iota.
    match goal with |- bind _ _ ?s1 = _ =>
      rewrite (bind_Return _ _ s1 tt s1) by reflexivity
    end.
    unfold add_trace. cbn [self cache trace]. rewrite <- !app_assoc. reflexivity.
Qed.

Lemma github_resolution_fetched_sha :
  forall url_concat fetch (now : Q) (s : State GitHubRepoProvider.t) resp
         remaining rate_limit reset_timestamp m sha,
    let p := self s in
    let api_url := GitHubRepoProvider.api_url p in
    let entry := Cache.mkEntry (headers resp !! "ETag") sha in
    GitHubRepoProvider.resolved_ref p = None ->
    fetch (GitHubRepoProvider.request url_concat (GitHubRepoProvider.auth p) api_url
             (Cache.lookup api_url (cache s) ≫= Cache.etag)) = Return resp ->
    code resp <> 304%Z ->
    reads_rate_limit now (headers resp) remaining rate_limit reset_timestamp ->
    body resp = Some (VDict m) ->
    m !! "sha" = Some sha ->
    let run := GitHubRepoProvider.get_resolved_ref url_concat fetch now s in
    run.1 = Return sha
    /\ self run.2 = GitHubRepoProvider.with_resolved_ref p sha
    /\ cache run.2 = Cache.set api_url entry (Cache.move_to_end api_url (cache s))
    /\ ((1 <= Cache.max_size (cache s))%nat ->
        Cache.lookup api_url (cache run.2) = Some entry).
Proof.
  intros url_concat fetch now s resp remaining rate_limit reset_timestamp m sha
    p api_url entry Hmemo Hf Hcode Hr Hbody Hsha run.
  destruct (github_resolution_fetched url_concat fetch now s resp remaining rate_limit
              reset_timestamp Hmemo Hf Hcode Hr) as (tr & Hrun).
  subst run. rewrite Hrun. fold p. fold api_url.
  assert (json_body resp = Return (VDict m)) as Hj by (unfold json_body; by rewrite Hbody).
  assert (contains (VDict m) "sha" = Return true) as Hc
    by (simpl; by rewrite Hsha, bool_decide_eq_true_2).
  assert (subscript (VDict m) "sha" = Return sha) as Hs by (simpl; by rewrite Hsha).
  run_lift Hj. run_lift Hc. change (negb true) with false. cbv iota. run_lift Hs.
  cbv beta iota delta [bind GitHubRepoProvider.set_resolved_ref get_self set_self
    cache_set ret].
  cbn [self cache trace fst snd]. fold entry. repeat split.
  intros Hmax. apply lookup_set_same.
  unfold Cache.move_to_end. destruct (Cache.lookup api_url (cache s)); simpl; lia.
Qed.


(** X15. A GitHub resolution that fetches a document with a [sha] member
    (a response other than a 304, its rate-limit headers readable) returns
    that sha, stores it on the instance and sets the cache entry of the API
    URL to the [ETag] header of the response, absent when the header is,
    and the sha; in a cache of capacity 1 or more the entry can then be
    looked up. *)
Theorem github_fetched_sha_is_cached :
  forall url_concat fetch (now : Q) (s : State GitHubRepoProvider.t) resp
         remaining rate_limit reset_timestamp m sha,
    let p := self s in
    let api_url := GitHubRepoProvider.api_url p in
    let entry := Cache.mkEntry (headers resp !! "ETag") sha in
    GitHubRepoProvider.resolved_ref p = None ->
    fetch (GitHubRepoProvider.request url_concat (GitHubRepoProvider.auth p) api_url
             (Cache.lookup api_url (cache s) ≫= Cache.etag)) = Return resp ->
    code resp <> 304%Z ->
    reads_rate_limit now (headers resp) remaining rate_limit reset_timestamp ->
    body resp = Some (VDict m) ->
    m !! "sha" = Some sha ->
    let run := GitHubRepoProvider.get_resolved_ref url_concat fetch now s in
    run.1 = Return sha
    /\ self run.2 = GitHubRepoProvider.with_resolved_ref p sha
    /\ cache run.2 = Cache.set api_url entry (Cache.move_to_end api_url (cache s))
    /\ ((1 <= Cache.max_size (cache s))%nat ->
        Cache.lookup api_url (cache run.2) = Some entry).
Proof.
  intros url_concat fetch now s resp remaining rate_limit reset_timestamp m sha
    p api_url entry Hmemo Hf Hcode Hr Hbody Hsha.
  by apply (github_resolution_fetched_sha url_concat fetch now s resp remaining rate_limit
              reset_timestamp m sha).
Qed.

Lemma github_fetched_sha_is_cached_witness :
  let run :=
    GitHubRepoProvider.get_resolved_ref sample_url_concat
      (answer (fetched sample_document)) 1000 (start sample_github sample_cache) in
  run.1 = Return (VStr sample_sha)
  /\ Cache.lookup sample_api_url (cache run.2) = Some (Cache.mkEntry None (VStr sample_sha)).
Proof.
  destruct (github_fetched_sha_is_cached sample_url_concat
              (answer (fetched sample_document)) 1000 (start sample_github sample_cache)
              (mkResponse 200 (rate_limit_headers "59" "60" "1130") (Some sample_document))
              59 60 1130 {[ "sha" := VStr sample_sha ]} (VStr sample_sha)
              eq_refl eq_refl ltac:(discriminate) sample_reads_rate_limit eq_refl eq_refl)
    as (Hret & _ & _ & Hlook).
  split; [exact Hret|]. apply Hlook. vm_compute. lia.
Defined.

(** X16. A GitHub resolution that fetches a document without [sha] returns
    the not-found value [None] and, unlike after a 404, stores it on the
    instance: the cache gets no entry, and every later call on the instance
    returns [None] without a fetch or a cache access, whatever the client
    would answer. *)
Theorem github_missing_sha_is_memoized :
  forall url_concat fetch (now : Q) (s : State GitHubRepoProvider.t) resp
         remaining rate_limit reset_timestamp ref_info,
    let p := self s in
    let api_url := GitHubRepoProvider.api_url p in
    GitHubRepoProvider.resolved_ref p = None ->
    fetch (GitHubRepoProvider.request url_concat (GitHubRepoProvider.auth p) api_url
             (Cache.lookup api_url (cache s) ≫= Cache.etag)) = Return resp ->
    code resp <> 304%Z ->
    reads_rate_limit now (headers resp) remaining rate_limit reset_timestamp ->
    body resp = Some ref_info ->
    contains ref_info "sha" = Return false ->
    let run := GitHubRepoProvider.get_resolved_ref url_concat fetch now s in
    run.1 = Return VNone
    /\ self run.2 = GitHubRepoProvider.with_resolved_ref p VNone
    /\ cache run.2 = Cache.move_to_end api_url (cache s)
    /\ forall url_concat' fetch' (now' : Q) c tr,
         GitHubRepoProvider.get_resolved_ref url_concat' fetch' now'
           (mkState (self run.2) c tr)
         = (Return VNone, mkState (self run.2) c tr).
Proof.
  intros url_concat fetch now s resp remaining rate_limit reset_timestamp ref_info
    p api_url Hmemo Hf Hcode Hr Hbody Hsha run.
  destruct (github_resolution_fetched url_concat fetch now s resp remaining rate_limit
              reset_timestamp Hmemo Hf Hcode Hr) as (tr & Hrun).
  subst run. rewrite Hrun. fold p. fold api_url.
  assert (json_body resp = Return ref_info) as Hj by (unfold json_body; by rewrite Hbody).
  run_lift Hj. run_lift Hsha. change (negb false) with true. cbv iota.
  cbv beta iota delta [bind emit GitHubRepoProvider.set_resolved_ref get_self set_self
    ret].
  cbn [self cache trace fst snd]. repeat split.
Qed.

Lemma github_missing_sha_is_memoized_witness :
  let run :=
    GitHubRepoProvider.get_resolved_ref sample_url_concat
      (answer (fetched (VDict {[ "message" := VStr "No commit found" ]}))) 1000
      (start sample_github sample_cache) in
  run.1 = Return VNone
  /\ GitHubRepoProvider.resolved_ref (self run.2) = Some VNone.
Proof.
  destruct (github_missing_sha_is_memoized sample_url_concat
              (answer (fetched (VDict {[ "message" := VStr "No commit found" ]}))) 1000
              (start sample_github sample_cache)
              (mkResponse 200 (rate_limit_headers "59" "60" "1130")
                 (Some (VDict {[ "message" := VStr "No commit found" ]})))
              59 60 1130 (VDict {[ "message" := VStr "No commit found" ]})
              eq_refl eq_refl ltac:(discriminate) sample_reads_rate_limit eq_refl eq_refl)
    as (Hret & Hself & _).
  split; [exact Hret|]. rewrite Hself. reflexivity.
Defined.

Lemma github_resolution_not_modified url_concat fetch now (s : State GitHubRepoProvider.t)
    c resp remaining rate_limit reset_timestamp :
  let p := self s in
  let api_url := GitHubRepoProvider.api_url p in
  GitHubRepoProvider.resolved_ref p = None ->
  Cache.lookup api_url (cache s) = Some c ->
  fetch (GitHubRepoProvider.request url_concat (GitHubRepoProvider.auth p) api_url
           (Cache.etag c))
  = Raise (HTTPError 304 (Some resp)) ->
  code resp = 304%Z ->
  reads_rate_limit now (headers resp) remaining rate_limit reset_timestamp ->
  (GitHubRepoProvider.get_resolved_ref url_concat fetch now s).1 = Return (Cache.sha c).
Proof.
  intros p api_url Hmemo Hc Hf Hcode Hr. subst p api_url.
  github_to_request s Hmemo. github_etag_step c Hc.
  match goal with |- (bind _ _ ?s1).1 = _ =>
    run (github_api_request_not_modified url_concat fetch now _ _ _ _ _ _ _ s1 Hf Hr)
  end.
  rewrite Hcode. simpl (304 =? 304)%Z. cbv iota. reflexivity.
Qed.

(** X17. The cache carries a sha from one instance to the next: after a
    GitHub resolution has fetched a sha, with a cache of capacity 1 or
    more, a fresh instance for the same API URL sends the stored [ETag] as
    [If-None-Match] when it is not empty, and when its request is answered
    with a 304 it resolves to the same sha. *)
Theorem github_cache_round_trip :
  forall url_concat fetch (now : Q) (s : State GitHubRepoProvider.t) resp
         remaining rate_limit reset_timestamp m sha,
    let p := self s in
    let api_url := GitHubRepoProvider.api_url p in
    GitHubRepoProvider.resolved_ref p = None ->
    fetch (GitHubRepoProvider.request url_concat (GitHubRepoProvider.auth p) api_url
             (Cache.lookup api_url (cache s) ≫= Cache.etag)) = Return resp ->
    code resp <> 304%Z ->
    reads_rate_limit now (headers resp) remaining rate_limit reset_timestamp ->
    body resp = Some (VDict m) ->
    m !! "sha" = Some sha ->
    (1 <= Cache.max_size (cache s))%nat ->
    let c1 := cache (GitHubRepoProvider.get_resolved_ref url_concat fetch now s).2 in
    forall fetch' (now' : Q) p' tr' resp' remaining' rate_limit' reset_timestamp',
      GitHubRepoProvider.resolved_ref p' = None ->
      GitHubRepoProvider.api_url p' = api_url ->
      let req' := GitHubRepoProvider.request url_concat (GitHubRepoProvider.auth p')
                    api_url (headers resp !! "ETag") in
      fetch' req' = Raise (HTTPError 304 (Some resp')) ->
      code resp' = 304%Z ->
      reads_rate_limit now' (headers resp') remaining' rate_limit' reset_timestamp' ->
      (GitHubRepoProvider.get_resolved_ref url_concat fetch' now' (mkState p' c1 tr')).1
      = Return sha
      /\ forall etag, headers resp !! "ETag" = Some etag -> etag <> "" ->
                      req_headers req' = {[ "If-None-Match" := etag ]}.
Proof.
  intros url_concat fetch now s resp remaining rate_limit reset_timestamp m sha p api_url
    Hmemo Hf Hcode Hr Hbody Hsha Hmax c1 fetch' now' p' tr' resp' remaining' rate_limit'
    reset_timestamp' Hmemo' Hurl req' Hf' Hcode' Hr'.
  destruct (github_resolution_fetched_sha url_concat fetch now s resp remaining rate_limit
              reset_timestamp m sha Hmemo Hf Hcode Hr Hbody Hsha) as (_ & _ & _ & Hlook).
  specialize (Hlook Hmax). fold p api_url c1 in Hlook.
  split.
  - apply (github_resolution_not_modified url_concat fetch' now' (mkState p' c1 tr')
             (Cache.mkEntry (headers resp !! "ETag") sha) resp' remaining' rate_limit'
             reset_timestamp'); cbn [self cache]; try done.
    + by rewrite Hurl.
    + by rewrite Hurl.
  - intros etag Hetag Hne. subst req'. unfold GitHubRepoProvider.request. rewrite Hetag.
    cbn [req_headers]. apply String.eqb_neq in Hne. by rewrite Hne.
Qed.

Lemma github_cache_round_trip_witness :
  let resp := mkResponse 200 (<[ "ETag" := "W/etag-2" ]> (rate_limit_headers "59" "60" "1130"))
                (Some sample_document) in
  let c1 := cache (GitHubRepoProvider.get_resolved_ref sample_url_concat
                     (answer (Return resp)) 1000
                     (start sample_github (Cache.create 1024))).2 in
  (GitHubRepoProvider.get_resolved_ref sample_url_concat (answer not_modified) 2000
     (mkState sample_github c1 [])).1
  = Return (VStr sample_sha).
Proof.
  intros resp c1.
  apply (github_cache_round_trip sample_url_concat (answer (Return resp)) 1000
           (start sample_github (Cache.create 1024)) resp 59 60 1130
           {[ "sha" := VStr sample_sha ]} (VStr sample_sha)
           eq_refl eq_refl ltac:(discriminate)
           ltac:(repeat split; try (eexists; split; reflexivity); by vm_compute)
           eq_refl eq_refl ltac:(vm_compute; lia)
           (answer not_modified) 2000%Q sample_github []
           (mkResponse 304 (rate_limit_headers "59" "60" "1130") None) 59%Z 60%Z 1130%Z
           eq_refl eq_refl eq_refl eq_refl sample_reads_rate_limit).
Defined.

(** ** What the resolvers leave alone *)

Lemma bind_cases {P A B} (m : M P A) (k : A -> M P B) s r s' :
  bind m k s = (r, s') ->
  (exists e, m s = (Raise e, s') /\ r = Raise e)
  \/ (exists a s1, m s = (Return a, s1) /\ k a s1 = (r, s')).
Proof.
  unfold bind. destruct (m s) as [[a|e] s1]; intros H.
  - right. by exists a, s1.
  - left. exists e. by simplify_eq.
Qed.

Tactic Notation "bind_cases" hyp(H) "as" ident(a) ident(s1) ident(H1) :=
  apply bind_cases in H as [(a & H1 & ->)|(a & s1 & H1 & H)].

Lemma lookup_In key c v : Cache.lookup key c = Some v -> In (key, v) (Cache.items c).
Proof.
  unfold Cache.lookup. destruct (List.find _ (Cache.items c)) as [[k w]|] eqn:E; [|done].
  intros [= <-]. apply List.find_some in E as [Hin Hk].
  apply String.eqb_eq in Hk. simpl in Hk. by subst.
Qed.

Lemma In_without key l kv : In kv (Cache.without key l) -> In kv l.
Proof. unfold Cache.without. rewrite List.filter_In. tauto. Qed.

Lemma In_move_to_end key c kv :
  In kv (Cache.items (Cache.move_to_end key c)) -> In kv (Cache.items c).
Proof.
  unfold Cache.move_to_end. destruct (Cache.lookup key c) as [v|] eqn:E; [|done].
  simpl. rewrite List.in_app_iff. intros [H|[<-|[]]].
  - by apply In_without in H.
  - by apply lookup_In.
Qed.

Lemma In_tl {A} (x : A) l : In x (List.tl l) -> In x l.
Proof. destruct l; [done|]. simpl. tauto. Qed.

Lemma In_set key v c kv :
  In kv (Cache.items (Cache.set key v c)) -> In kv (Cache.items c) \/ kv = (key, v).
Proof.
  unfold Cache.set. cbn [Cache.items]. intros H.
  assert (In kv (Cache.without key (Cache.items c) ++ [(key, v)])%list) as H'.
  { destruct (_ <? _)%nat; [by apply In_tl|done]. }
  apply List.in_app_iff in H' as [H'|[<-|[]]]; [|by right].
  left. by apply In_without in H'.
Qed.

Lemma max_size_move_to_end key c :
  Cache.max_size (Cache.move_to_end key c) = Cache.max_size c.
Proof. unfold Cache.move_to_end. by destruct (Cache.lookup key c). Qed.

(** The instance and the cache after a GitHub resolution, whatever its
    outcome. *)
Lemma github_resolution_frame url_concat fetch now (s : State GitHubRepoProvider.t) r s' :
  GitHubRepoProvider.get_resolved_ref url_concat fetch now s = (r, s') ->
  let api_url := GitHubRepoProvider.api_url (self s) in
  (self s' = self s
   /\ (cache s' = cache s \/ cache s' = Cache.move_to_end api_url (cache s)))
  \/ (exists v, r = Return v
        /\ self s' = GitHubRepoProvider.with_resolved_ref (self s) v
        /\ (cache s' = Cache.move_to_end api_url (cache s)
            \/ exists etag,
                 cache s' = Cache.set api_url (Cache.mkEntry etag v)
                              (Cache.move_to_end api_url (cache s)))).
Proof.
  intros H api_url. unfold GitHubRepoProvider.get_resolved_ref in H.
  bind_cases H as p s0 H0; unfold get_self in H0; simplify_eq.
  destruct (GitHubRepoProvider.resolved_ref (self s0)) as [v0|] eqn:Hmemo.
  { unfold ret in H. simplify_eq. left. split; [done|by left]. }
  fold api_url in H.
  bind_cases H as u1 s1 H1; unfold emit in H1; simplify_eq.
  bind_cases H as cached s2 H2; unfold cache_get in H2; simpl in H2; simplify_eq.
  assert (forall (etag : option string) s3,
            match Cache.lookup api_url (cache s0) with
            | Some c => (emit (EvLog Debug);; ret (Cache.etag c))%monad
            | None => ret None
            end
              (mkState (self s0) (Cache.move_to_end api_url (cache s0))
                 ((trace s0 ++ [EvLog Debug]) ++ [EvCacheGet api_url])%list)
            = (Return etag, s3) ->
            self s3 = self s0 /\ cache s3 = Cache.move_to_end api_url (cache s0)) as Hetag.
  { intros etag s3 E. destruct (Cache.lookup api_url (cache s0));
      unfold bind, emit, ret in E; by simplify_eq. }
  bind_cases H as etag s3 H3.
  { destruct (Cache.lookup api_url (cache s0));
      unfold bind, emit, ret in H3; by simplify_eq. }
  apply Hetag in H3 as [Hs3 Hc3]. clear Hetag.
  bind_cases H as resp s4 H4.
  { apply github_api_request_frame in H4 as (Hs4 & Hc4 & _).
    left. split; [congruence|]. right. congruence. }
  apply github_api_request_frame in H4 as (Hs4 & Hc4 & _).
  destruct resp as [resp|].
  2:{ unfold ret in H. simplify_eq. left. split; [congruence|]. right. congruence. }
  destruct (code resp =? 304)%Z.
  - destruct (Cache.lookup api_url (cache s0)) as [c|] eqn:Hc.
    + unfold bind, emit, GitHubRepoProvider.set_resolved_ref, get_self, set_self,
        cache_move_to_end, ret in H. simpl in H. simplify_eq. simpl.
      right. exists (Cache.sha c). split; [done|]. split; [congruence|].
      left. rewrite Hc4, Hc3. apply move_to_end_idem.
    + unfold raise in H. simplify_eq. left. split; [congruence|]. right. congruence.
  - bind_cases H as u5 s5 H5.
    { destruct (Cache.lookup api_url (cache s0)); unfold emit, ret in H5; by simplify_eq. }
    assert (self s5 = self s4 /\ cache s5 = cache s4) as [Hs5 Hc5].
    { destruct (Cache.lookup api_url (cache s0)); unfold emit, ret in H5; by simplify_eq. }
    clear H5.
    bind_cases H as ref_info s6 H6; unfold lift in H6; simplify_eq.
    { left. split; [congruence|]. right. congruence. }
    bind_cases H as has_sha s7 H7; unfold lift in H7; simplify_eq.
    { left. split; [congruence|]. right. congruence. }
    destruct (negb has_sha).
    + unfold bind, emit, GitHubRepoProvider.set_resolved_ref, get_self, set_self, ret in H.
      simpl in H. simplify_eq. simpl.
      right. exists VNone. split; [done|]. split; [congruence|]. left. congruence.
    + bind_cases H as sha s8 H8; unfold lift in H8; simplify_eq.
      { left. split; [congruence|]. right. congruence. }
      unfold bind, GitHubRepoProvider.set_resolved_ref, get_self, set_self, cache_set,
        ret in H. simpl in H. simplify_eq. simpl.
      right. exists sha. split; [done|]. split; [congruence|].
      right. eexists. by rewrite Hc5, Hc4, Hc3.
Qed.

(** X18. A GitHub resolution writes the cache with what it returns only:
    every item of the cache afterwards was an item before, or is the entry
    of the API URL holding the returned sha. A resolution that raises
    leaves the instance as it is and changes no lookup; the capacity never
    changes. *)
Theorem github_resolution_writes_only_its_result :
  forall url_concat fetch (now : Q) (s : State GitHubRepoProvider.t) r s',
    GitHubRepoProvider.get_resolved_ref url_concat fetch now s = (r, s') ->
    (forall kv, In kv (Cache.items (cache s')) ->
       In kv (Cache.items (cache s))
       \/ (kv.1 = GitHubRepoProvider.api_url (self s) /\ r = Return (Cache.sha kv.2)))
    /\ (forall e, r = Raise e ->
          self s' = self s
          /\ forall key, Cache.lookup key (cache s') = Cache.lookup key (cache s))
    /\ Cache.max_size (cache s') = Cache.max_size (cache s).
Proof.
  intros url_concat fetch now s r s' Hrun.
  destruct (github_resolution_frame _ _ _ _ _ _ Hrun)
    as [[Hself [Hc|Hc]]|(v & -> & Hself & [Hc|[etag Hc]])]; rewrite Hc.
  - split; [by left|]. split; [done|done].
  - split; [|split].
    + intros kv Hin. left. by apply In_move_to_end in Hin.
    + intros e _. split; [done|]. intros key. apply lookup_move_to_end.
    + apply max_size_move_to_end.
  - split; [|split].
    + intros kv Hin. left. by apply In_move_to_end in Hin.
    + intros e [=].
    + apply max_size_move_to_end.
  - split; [|split].
    + intros kv Hin. apply In_set in Hin as [Hin| ->].
      * left. by apply In_move_to_end in Hin.
      * by right.
    + intros e [=].
    + simpl. apply max_size_move_to_end.
Qed.

Lemma github_resolution_writes_only_its_result_witness :
  let run :=
    GitHubRepoProvider.get_resolved_ref sample_url_concat
      (answer (Raise (HTTPError 500 None))) 1000 (start sample_github sample_cache) in
  run.1 = Raise (HTTPError 500 None)
  /\ self run.2 = sample_github
  /\ forall key, Cache.lookup key (cache run.2) = Cache.lookup key sample_cache.
Proof.
  intros run. split; [reflexivity|].
  apply (proj1 (proj2 (github_resolution_writes_only_its_result sample_url_concat
                         (answer (Raise (HTTPError 500 None))) 1000
                         (start sample_github sample_cache) run.1 run.2
                         (surjective_pairing run)))
           (HTTPError 500 None)).
  reflexivity.
Defined.

Lemma gist_resolution_frame url_concat fetch now (s : State GistRepoProvider.t) r s' :
  GistRepoProvider.get_resolved_ref url_concat fetch now s = (r, s') ->
  let req := GitHubRepoProvider.request url_concat (GistRepoProvider.auth (self s))
               (GistRepoProvider.api_url (self s)) None in
  cache s' = cache s
  /\ (self s' = self s
      \/ exists v, r = Return v /\ self s' = GistRepoProvider.with_resolved_ref (self s) v)
  /\ (trace s' = trace s
      \/ exists tr,
           trace s' = (trace s ++ EvLog Debug :: EvFetch req :: tr)%list
           /\ Forall (fun ev => ~ is_fetch ev /\ ~ is_cache_access ev) tr).
Proof.
  intros H req. unfold GistRepoProvider.get_resolved_ref in H.
  bind_cases H as p s0 H0; unfold get_self in H0; simplify_eq.
  destruct (GistRepoProvider.resolved_ref (self s0)) as [v0|] eqn:Hmemo.
  { unfold ret in H. simplify_eq. split; [done|]. split; by left. }
  bind_cases H as u1 s1 H1; unfold emit in H1; simplify_eq.
  match type of H with
  | bind (GitHubRepoProvider.github_api_request _ _ _ ?a ?u ?e) _ ?st = _ =>
      destruct (github_api_request_trace url_concat fetch now a u e st) as (tr & Htr & Hno)
  end.
  fold req in Htr.
  assert (forall st : State GistRepoProvider.t,
            st = add_trace (mkState (self s0) (cache s0) (trace s0 ++ [EvLog Debug])%list)
                   (EvFetch req :: tr) ->
            cache st = cache s0 /\ self st = self s0
            /\ trace st = (trace s0 ++ EvLog Debug :: EvFetch req :: tr)%list) as Hst.
  { intros st ->. unfold add_trace. cbn [self cache trace].
    by rewrite <- app_assoc. }
  bind_cases H as resp s2 H2.
  { rewrite H2 in Htr. cbn [snd] in Htr. destruct (Hst _ Htr) as (Hc & Hs & Ht).
    split; [done|]. split; [by left|]. right. by exists tr. }
  rewrite H2 in Htr. cbn [snd] in Htr. destruct (Hst _ Htr) as (Hc & Hs & Ht).
  clear Hst Htr H2.
  assert (forall (x : result value) st, (x, st) = (r, s') -> st = s2 ->
            cache s' = cache s0
            /\ (self s' = self s0
                \/ exists v, r = Return v
                             /\ self s' = GistRepoProvider.with_resolved_ref (self s0) v)
            /\ (trace s' = trace s0
                \/ exists tr0,
                     trace s' = (trace s0 ++ EvLog Debug :: EvFetch req :: tr0)%list
                     /\ Forall (fun ev => ~ is_fetch ev /\ ~ is_cache_access ev) tr0))
    as Hsame.
  { intros x st [= <- <-] ->. split; [done|]. split; [by left|]. right. by exists tr. }
  destruct resp as [resp|]; [|by apply (Hsame (Return VNone) s2)].
  bind_cases H as ref_info s3 H3; unfold lift in H3; simplify_eq;
    [by eapply Hsame|].
  bind_cases H as forbidden s4 H4; unfold lift in H4; simplify_eq;
    [by eapply Hsame|].
  destruct forbidden; [by eapply Hsame|].
  bind_cases H as history s5 H5; unfold lift in H5; simplify_eq;
    [by eapply Hsame|].
  bind_cases H as versions s6 H6; unfold lift in H6; simplify_eq;
    [by eapply Hsame|].
  destruct (_ || _).
  - destruct versions as [|v rest]; [by eapply Hsame|].
    unfold bind, GistRepoProvider.set_resolved_ref, get_self, set_self, ret in H.
    simpl in H. simplify_eq. simpl.
    split; [done|]. split; [right; exists v; by rewrite Hs|]. right. by exists tr.
  - destruct (negb _); [by eapply Hsame|].
    unfold bind, GistRepoProvider.set_resolved_ref, get_self, set_self, ret in H.
    simpl in H. simplify_eq. simpl.
    split; [done|]. split; [right; eexists; by rewrite Hs|]. right. by exists tr.
Qed.

(** X19. A Gist resolution never touches the cache: the cache is the same
    afterwards and no event of the resolution is a cache access. It makes
    at most one fetch, of a request without [If-None-Match], and changes
    the instance only by storing the value it returns. *)
Theorem gist_resolution_is_uncached :
  forall url_concat fetch (now : Q) (s : State GistRepoProvider.t) r s',
    GistRepoProvider.get_resolved_ref url_concat fetch now s = (r, s') ->
    let req := GitHubRepoProvider.request url_concat (GistRepoProvider.auth (self s))
                 (GistRepoProvider.api_url (self s)) None in
    cache s' = cache s
    /\ req_headers req = ∅
    /\ (self s' = self s
        \/ exists v, r = Return v /\ self s' = GistRepoProvider.with_resolved_ref (self s) v)
    /\ (trace s' = trace s
        \/ exists tr,
             trace s' = (trace s ++ EvLog Debug :: EvFetch req :: tr)%list
             /\ Forall (fun ev => ~ is_fetch ev /\ ~ is_cache_access ev) tr).
Proof.
  intros url_concat fetch now s r s' Hrun req.
  destruct (gist_resolution_frame _ _ _ _ _ _ Hrun) as (Hc & Hs & Ht).
  split; [done|]. split; [done|]. split; done.
Qed.

Lemma gist_resolution_is_uncached_witness :
  let run :=
    GistRepoProvider.get_resolved_ref sample_url_concat
      (answer (fetched (gist_document true [sample_sha; other_sha]))) 1000
      (start (sample_gist false "") sample_cache) in
  cache run.2 = sample_cache.
Proof.
  intros run.
  apply (proj1 (gist_resolution_is_uncached sample_url_concat
                  (answer (fetched (gist_document true [sample_sha; other_sha]))) 1000
                  (start (sample_gist false "") sample_cache) run.1 run.2
                  (surjective_pairing run))).
Defined.

(** ** The documents the resolvers read *)

Lemma gist_resolution_fetched url_concat fetch now (s : State GistRepoProvider.t)
    resp remaining rate_limit reset_timestamp :
  let p := self s in
  GistRepoProvider.resolved_ref p = None ->
  fetch (GitHubRepoProvider.request url_concat (GistRepoProvider.auth p)
           (GistRepoProvider.api_url p) None) = Return resp ->
  reads_rate_limit now (headers resp) remaining rate_limit reset_timestamp ->
  exists tr,
    GistRepoProvider.get_resolved_ref url_concat fetch now s
    = (ref_info <- lift (json_body resp);;
       forbidden <- lift (GistRepoProvider.is_forbidden p ref_info);;
       if forbidden then raise (ValueError GistRepoProvider.secret_gist_msg)
       else
         history <- lift (subscript ref_info "history");;
         all_versions <- lift (all_versions_of history);;
         if (String.length (GistRepoProvider.unresolved_ref p) =? 0)%nat
            || String.eqb (GistRepoProvider.unresolved_ref p) "master"
         then
           match all_versions with
           | v :: _ => GistRepoProvider.set_resolved_ref v;; ret v
           | [] => raise IndexError
           end
         else if negb (str_in_list (GistRepoProvider.unresolved_ref p) all_versions)
         then ret VNone
         else
           GistRepoProvider.set_resolved_ref (VStr (GistRepoProvider.unresolved_ref p));;
           ret (VStr (GistRepoProvider.unresolved_ref p)))%monad
        (mkState p (cache s) (trace s ++ tr)%list).
Proof.
  intros p Hmemo Hf Hr. subst p. eexists.
  gist_to_request s Hmemo.
  match goal with |- bind _ _ ?s1 = _ =>
    run (github_api_request_fetched url_concat fetch now _ _ _ _ _ _ _ s1 Hf Hr)
  end.
  unfold add_trace. cbn [self cache trace]. rewrite <- !app_assoc. reflexivity.
Qed.

Lemma raise_in_lift {P A B} (r : result A) (k : A -> M P B) (s : State P) e :
  r = Raise e -> bind (lift r) k s = (Raise e, s).
Proof. intros ->. reflexivity. Qed.

(** X20. What a Gist resolution does with a fetched document it cannot
    use. A body that is no JSON raises the decoding error. When secret
    gists are not allowed, a document without [public] raises [KeyError]
    and a document whose [public] is falsy raises the [ValueError] of the
    gate, the instance unchanged. Past the gate, a document without
    [history] raises [KeyError], and the error of a history entry that has
    no [version] is raised as it is. *)
Theorem gist_unusable_document :
  forall url_concat fetch (now : Q) (s : State GistRepoProvider.t) resp
         remaining rate_limit reset_timestamp,
    let p := self s in
    GistRepoProvider.resolved_ref p = None ->
    fetch (GitHubRepoProvider.request url_concat (GistRepoProvider.auth p)
             (GistRepoProvider.api_url p) None) = Return resp ->
    reads_rate_limit now (headers resp) remaining rate_limit reset_timestamp ->
    let run := GistRepoProvider.get_resolved_ref url_concat fetch now s in
    (body resp = None -> run.1 = Raise JSONDecodeError)
    /\ (forall m, body resp = Some (VDict m) ->
          GistRepoProvider.allow_secret_gist p = false ->
          m !! "public" = None -> run.1 = Raise (KeyError "public"))
    /\ (forall m public, body resp = Some (VDict m) ->
          GistRepoProvider.allow_secret_gist p = false ->
          m !! "public" = Some public -> truthy public = false ->
          run.1 = Raise (ValueError GistRepoProvider.secret_gist_msg) /\ self run.2 = p)
    /\ (forall m, body resp = Some (VDict m) -> passes_gate p (VDict m) ->
          m !! "history" = None -> run.1 = Raise (KeyError "history"))
    /\ (forall m hs e, body resp = Some (VDict m) -> passes_gate p (VDict m) ->
          m !! "history" = Some (VList hs) -> versions_of hs = Raise e ->
          run.1 = Raise e).
Proof.
  intros url_concat fetch now s resp remaining rate_limit reset_timestamp p Hmemo Hf Hr run.
  destruct (gist_resolution_fetched url_concat fetch now s resp remaining rate_limit
              reset_timestamp Hmemo Hf Hr) as (tr & Hrun).
  subst run. rewrite Hrun. fold p. clear Hrun.
  split; [|split; [|split; [|split]]].
  - intros Hb. rewrite raise_in_lift with (e := JSONDecodeError); [done|].
    unfold json_body. by rewrite Hb.
  - intros m Hb Hallow Hpub.
    assert (json_body resp = Return (VDict m)) as Hj by (unfold json_body; by rewrite Hb).
    run_lift Hj. rewrite raise_in_lift with (e := KeyError "public"); [done|].
    unfold GistRepoProvider.is_forbidden. rewrite Hallow. simpl. by rewrite Hpub.
  - intros m public Hb Hallow Hpub Htr.
    assert (json_body resp = Return (VDict m)) as Hj by (unfold json_body; by rewrite Hb).
    run_lift Hj.
    assert (GistRepoProvider.is_forbidden p (VDict m) = Return true) as Hforb.
    { unfold GistRepoProvider.is_forbidden. rewrite Hallow. simpl. rewrite Hpub. simpl.
      by rewrite Htr. }
    run_lift Hforb. done.
  - intros m Hb Hgate Hh.
    assert (json_body resp = Return (VDict m)) as Hj by (unfold json_body; by rewrite Hb).
    run_lift Hj. run_lift (passes_gate_not_forbidden _ _ Hgate).
    rewrite raise_in_lift with (e := KeyError "history"); [done|].
    simpl. by rewrite Hh.
  - intros m hs e Hb Hgate Hh He.
    assert (json_body resp = Return (VDict m)) as Hj by (unfold json_body; by rewrite Hb).
    run_lift Hj. run_lift (passes_gate_not_forbidden _ _ Hgate).
    assert (subscript (VDict m) "history" = Return (VList hs)) as Hs
      by (simpl; by rewrite Hh).
    run_lift Hs. by rewrite raise_in_lift with (e := e).
Qed.

Lemma gist_unusable_document_witness :
  (GistRepoProvider.get_resolved_ref sample_url_concat
     (answer (fetched (VDict {[ "history" := VList [] ]}))) 1000
     (start (sample_gist false "") (Cache.create 1024))).1
  = Raise (KeyError "public").
Proof.
  apply (proj1 (proj2 (gist_unusable_document sample_url_concat
                         (answer (fetched (VDict {[ "history" := VList [] ]}))) 1000
                         (start (sample_gist false "") (Cache.create 1024))
                         (mkResponse 200 (rate_limit_headers "59" "60" "1130")
                            (Some (VDict {[ "history" := VList [] ]})))
                         59 60 1130 eq_refl eq_refl sample_reads_rate_limit))
           {[ "history" := VList [] ]}); reflexivity.
Defined.

(** ** The GitLab resolver *)

(** X21. A GitLab resolution of a fresh instance makes one fetch and never
    touches the cache. A 404 gives the not-found value [None] and stores
    nothing; every other [HTTPError], a 422 or a 304 among them, is raised
    again as it is; a document with an [id] resolves to it and stores it; a
    body that is no JSON and a document without [id] raise the decoding
    error and [KeyError]. *)
Theorem gitlab_resolution_cases :
  forall quote url_concat fetch (s : State GitLabRepoProvider.t),
    let p := self s in
    let req := GitLabRepoProvider.request quote url_concat p in
    let run := GitLabRepoProvider.get_resolved_ref quote url_concat fetch s in
    GitLabRepoProvider.resolved_ref p = None ->
    (forall response, fetch req = Raise (HTTPError 404 response) ->
       run = (Return VNone, add_trace s [EvLog Debug; EvFetch req]))
    /\ (forall status response, fetch req = Raise (HTTPError status response) ->
          status <> 404%Z ->
          run = (Raise (HTTPError status response), add_trace s [EvLog Debug; EvFetch req]))
    /\ (forall resp m id, fetch req = Return resp -> body resp = Some (VDict m) ->
          m !! "id" = Some id ->
          run = (Return id,
                 mkState (GitLabRepoProvider.with_resolved_ref p id) (cache s)
                         (trace s ++ [EvLog Debug; EvFetch req])%list))
    /\ (forall resp, fetch req = Return resp -> body resp = None ->
          run = (Raise JSONDecodeError, add_trace s [EvLog Debug; EvFetch req]))
    /\ (forall resp m, fetch req = Return resp -> body resp = Some (VDict m) ->
          m !! "id" = None ->
          run = (Raise (KeyError "id"), add_trace s [EvLog Debug; EvFetch req])).
Proof.
  intros quote url_concat fetch s p req run Hmemo. subst run.
  unfold GitLabRepoProvider.get_resolved_ref.
  run (get_self_run s). fold p. rewrite Hmemo. fold req.
  run (emit_run (EvLog Debug) s).
  run (emit_run (EvFetch req) (add_trace s [EvLog Debug])).
  rewrite add_trace_add_trace. cbn [app].
  split; [|split; [|split; [|split]]].
  - intros response Hf. by rewrite Hf.
  - intros status response Hf Hs. rewrite Hf. apply Z.eqb_neq in Hs. by rewrite Hs.
  - intros resp m id Hf Hb Hid. rewrite Hf.
    unfold bind, lift, json_body, subscript, set_self, ret. rewrite Hb, Hid. reflexivity.
  - intros resp Hf Hb. rewrite Hf. unfold bind, lift, json_body. by rewrite Hb.
  - intros resp m Hf Hb Hid. rewrite Hf.
    unfold bind, lift, json_body, subscript. by rewrite Hb, Hid.
Qed.

Lemma gitlab_resolution_cases_witness :
  let p := GitLabRepoProvider.mk "group%2Frepo/master" "gitlab.com" [] "group/repo"
             "master" None in
  (GitLabRepoProvider.get_resolved_ref (fun x => x) sample_url_concat
     (answer (Raise (HTTPError 422 None))) (start p (Cache.create 1024))).1
  = Raise (HTTPError 422 None).
Proof.
  intros p.
  rewrite (proj1 (proj2 (gitlab_resolution_cases (fun x => x) sample_url_concat
                           (answer (Raise (HTTPError 422 None)))
                           (start p (Cache.create 1024)) eq_refl))
             422%Z None eq_refl ltac:(discriminate)).
  reflexivity.
Defined.

(** ** The Zenodo provider *)

(** X22. A Zenodo resolution fetches [https://doi.org/] followed by the
    spec and returns what follows the last slash of the effective URL,
    which becomes the record id of the build slug; an effective URL
    without a slash raises [IndexError] and an exception of the client is
    raised as it is, the instance unchanged in both cases. *)
Theorem zenodo_resolution_cases :
  forall fetch (s : State ZenodoProvider.t),
    let req := ZenodoProvider.request (self s) in
    let run := ZenodoProvider.get_resolved_ref fetch s in
    url req = "https://doi.org/" +:+ ZenodoProvider.spec (self s)
    /\ (forall base id, fetch req = Return (base +:+ "/" +:+ id) -> no_slash id ->
          run = (Return (VStr id),
                 mkState (ZenodoProvider.mk (ZenodoProvider.spec (self s)) (Some id))
                         (cache s) (trace s ++ [EvFetch req])%list)
          /\ ZenodoProvider.get_build_slug (self run.2) = Return ("zenodo-" +:+ id))
    /\ (forall effective_url, fetch req = Return effective_url -> no_slash effective_url ->
          run = (Raise IndexError, add_trace s [EvFetch req]))
    /\ (forall e, fetch req = Raise e -> run = (Raise e, add_trace s [EvFetch req])).
Proof.
  intros fetch s req run. subst run. unfold ZenodoProvider.get_resolved_ref.
  run (get_self_run s). fold req. run (emit_run (EvFetch req) s).
  split; [done|]. split; [|split].
  - intros base id Hf Hid. rewrite Hf. unfold Py.rsplit1.
    rewrite slash_cons, rcut_last by done.
    split; [reflexivity|]. reflexivity.
  - intros u Hf Hu. rewrite Hf. unfold Py.rsplit1. by rewrite rcut_no_sep.
  - intros e Hf. by rewrite Hf.
Qed.

Lemma zenodo_resolution_cases_witness :
  let s := start (ZenodoProvider.mk "10.5281/zenodo.3242074" None) (Cache.create 1024) in
  let run :=
    ZenodoProvider.get_resolved_ref (fun _ => Return ("https://zenodo.org/record" +:+ "/" +:+ "3242074")) s in
  run.1 = Return (VStr "3242074")
  /\ ZenodoProvider.get_build_slug (self run.2) = Return ("zenodo-" +:+ "3242074").
Proof.
  intros s run.
  destruct (proj1 (proj2 (zenodo_resolution_cases
                            (fun _ => Return ("https://zenodo.org/record" +:+ "/" +:+ "3242074"))
                            s))
              "https://zenodo.org/record" "3242074" eq_refl eq_refl) as [Hrun Hslug].
  split; [|exact Hslug]. subst run. by rewrite Hrun.
Defined.

(** X23. The Zenodo provider keeps no resolution: every call of
    [get_resolved_ref] makes one fetch, also on an instance that has
    resolved before, never touches the cache, and a call that raises leaves
    the record id as it was. Its build slug is an [AttributeError] until a
    resolution has succeeded, and afterwards follows the last resolved
    record id. *)
Theorem zenodo_never_memoizes :
  forall fetch (s : State ZenodoProvider.t),
    let run := ZenodoProvider.get_resolved_ref fetch s in
    trace run.2 = (trace s ++ [EvFetch (ZenodoProvider.request (self s))])%list
    /\ cache run.2 = cache s
    /\ (forall e, run.1 = Raise e -> self run.2 = self s)
    /\ (forall v, run.1 = Return v ->
          exists id, v = VStr id
                     /\ ZenodoProvider.get_build_slug (self run.2) = Return ("zenodo-" +:+ id))
    /\ (ZenodoProvider.record_id (self s) = None ->
        ZenodoProvider.get_build_slug (self s) = Raise AttributeError).
Proof.
  intros fetch s run. subst run. unfold ZenodoProvider.get_resolved_ref.
  run (get_self_run s). run (emit_run (EvFetch (ZenodoProvider.request (self s))) s).
  assert (ZenodoProvider.record_id (self s) = None ->
          ZenodoProvider.get_build_slug (self s) = Raise AttributeError) as Hslug
    by (unfold ZenodoProvider.get_build_slug; by intros ->).
  destruct (fetch _) as [u|e].
  - destruct (Py.rsplit1 "/" u) as [|a [|b [|c l]]];
      (split; [reflexivity|]; split; [reflexivity|]; split; [done|]; split; [|done]);
      try done.
    intros v [= <-]. by exists b.
  - split; [reflexivity|]. split; [reflexivity|]. by split; [|split].
Qed.

(** ** Fetches of the GitHub resolver *)

Lemma quiet_ret {P A} (a : A) : quiet (ret a : M P A).
Proof. intros s r s' [= <- <-]. exists []. by rewrite app_nil_r. Qed.

Lemma quiet_raise {P A} e : quiet (raise e : M P A).
Proof. intros s r s' [= <- <-]. exists []. by rewrite app_nil_r. Qed.

Lemma quiet_lift {P A} (x : result A) : quiet (lift x : M P A).
Proof. intros s r s' [= <- <-]. exists []. by rewrite app_nil_r. Qed.

Lemma quiet_get_self {P} : quiet (get_self : M P P).
Proof. intros s r s' [= <- <-]. exists []. by rewrite app_nil_r. Qed.

Lemma quiet_set_self {P} (p : P) : quiet (set_self p).
Proof. intros s r s' [= <- <-]. exists []. by rewrite app_nil_r. Qed.

Lemma quiet_emit {P} ev : ~ is_fetch ev -> quiet (emit ev : M P unit).
Proof. intros Hev s r s' [= <- <-]. exists [ev]. split; [done|]. by constructor. Qed.

Lemma quiet_cache_get {P} key : quiet (cache_get key : M P _).
Proof.
  intros s r s' [= <- <-]. exists [EvCacheGet key]. split; [done|].
  constructor; [|done]. by intros [].
Qed.

Lemma quiet_cache_set {P} key v : quiet (cache_set key v : M P unit).
Proof.
  intros s r s' [= <- <-]. exists [EvCacheSet key v]. split; [done|].
  constructor; [|done]. by intros [].
Qed.

Lemma quiet_cache_move_to_end {P} key : quiet (cache_move_to_end key : M P unit).
Proof.
  intros s r s' [= <- <-]. exists [EvCacheMoveToEnd key]. split; [done|].
  constructor; [|done]. by intros [].
Qed.

Lemma quiet_bind {P A B} (m : M P A) (k : A -> M P B) :
  quiet m -> (forall a, quiet (k a)) -> quiet (bind m k).
Proof.
  intros Hm Hk s r s' H. apply bind_cases in H as [(e & H1 & ->)|(a & s1 & H1 & H)].
  - by apply Hm in H1.
  - apply Hm in H1 as (tr1 & Ht1 & Hn1). apply Hk in H as (tr2 & Ht2 & Hn2).
    exists (tr1 ++ tr2)%list. split.
    + by rewrite Ht2, Ht1, app_assoc.
    + by apply Forall_app.
Qed.

Lemma quiet_github_set_resolved_ref v : quiet (GitHubRepoProvider.set_resolved_ref v).
Proof.
  apply quiet_bind; [apply quiet_get_self|]. intros p. apply quiet_set_self.
Qed.

Ltac quiet_step :=
  first
    [ apply quiet_ret | apply quiet_raise | apply quiet_lift | apply quiet_get_self
    | apply quiet_set_self | apply quiet_cache_get | apply quiet_cache_set
    | apply quiet_cache_move_to_end | apply quiet_github_set_resolved_ref
    | apply quiet_emit; simpl; tauto
    | apply quiet_bind; [|intros ?] ].

(** X24. A GitHub resolution makes no fetch on an instance that holds a
    resolution, and exactly one otherwise, whatever the answer: the request
    for the API URL with the etag of the cache entry, if there is one. No
    request is repeated. *)
Theorem github_resolution_fetches_once :
  forall url_concat fetch (now : Q) (s : State GitHubRepoProvider.t) r s',
    GitHubRepoProvider.get_resolved_ref url_concat fetch now s = (r, s') ->
    let p := self s in
    let api_url := GitHubRepoProvider.api_url p in
    let req := GitHubRepoProvider.request url_concat (GitHubRepoProvider.auth p) api_url
                 (Cache.lookup api_url (cache s) ≫= Cache.etag) in
    (is_Some (GitHubRepoProvider.resolved_ref p) -> s' = s)
    /\ (GitHubRepoProvider.resolved_ref p = None ->
        exists before after,
          trace s' = (trace s ++ before ++ EvFetch req :: after)%list
          /\ Forall (fun ev => ~ is_fetch ev) before
          /\ Forall (fun ev => ~ is_fetch ev) after).
Proof.
  intros url_concat fetch now s r s' H p api_url req.
  unfold GitHubRepoProvider.get_resolved_ref in H.
  bind_cases H as p0 s0 H0; unfold get_self in H0; simplify_eq.
  fold p in H. split.
  - intros [v Hv]. rewrite Hv in H. unfold ret in H. by simplify_eq.
  - intros Hmemo. rewrite Hmemo in H. fold api_url in H.
    bind_cases H as u1 s1 H1; unfold emit in H1; simplify_eq.
    bind_cases H as cached s2 H2; unfold cache_get in H2; simpl in H2; simplify_eq.
    fold p api_url in H.
    assert (exists before,
              forall etag s3,
                match Cache.lookup api_url (cache s0) with
                | Some c => (emit (EvLog Debug);; ret (Cache.etag c))%monad
                | None => ret None
                end
                  (mkState p (Cache.move_to_end api_url (cache s0))
                     ((trace s0 ++ [EvLog Debug]) ++ [EvCacheGet api_url])%list)
                = (Return etag, s3) ->
                etag = Cache.lookup api_url (cache s0) ≫= Cache.etag
                /\ trace s3 = (trace s0 ++ before)%list
                /\ Forall (fun ev => ~ is_fetch ev) before) as (before & Hetag).
    { destruct (Cache.lookup api_url (cache s0)) as [c|].
      - exists [EvLog Debug; EvCacheGet api_url; EvLog Debug]. intros etag s3 E.
        unfold bind, emit, ret in E. simplify_eq. simpl. split; [done|].
        split; [by rewrite <- !app_assoc|]. repeat constructor; simpl; tauto.
      - exists [EvLog Debug; EvCacheGet api_url]. intros etag s3 E.
        unfold ret in E. simplify_eq. simpl. split; [done|].
        split; [by rewrite <- !app_assoc|]. repeat constructor; simpl; tauto. }
    bind_cases H as etag s3 H3.
    { destruct (Cache.lookup api_url (cache s0));
        unfold bind, emit, ret in H3; by simplify_eq. }
    apply Hetag in H3 as (-> & Ht3 & Hbefore). clear Hetag. fold req in H.
    match type of H with
    | bind (GitHubRepoProvider.github_api_request _ _ _ ?a ?u ?e) _ ?st = _ =>
        destruct (github_api_request_trace url_concat fetch now a u e st)
          as (tr & Htr & Hno)
    end.
    fold req in Htr.
    assert (Forall (fun ev => ~ is_fetch ev) tr) as Hno'
      by (eapply Forall_impl; [exact Hno|]; simpl; tauto).
    bind_cases H as resp s4 H4.
    { rewrite H4 in Htr. cbn [snd] in Htr. subst s'. exists before, tr.
      unfold add_trace. cbn [trace]. rewrite Ht3, <- app_assoc. done. }
    rewrite H4 in Htr. cbn [snd] in Htr.
    assert (trace s4 = (trace s0 ++ before ++ EvFetch req :: tr)%list) as Ht4
      by (subst s4; unfold add_trace; cbn [trace]; by rewrite Ht3, <- app_assoc).
    clear Htr H4.
    assert (quiet (fun st : State GitHubRepoProvider.t =>
              match resp with
              | Some resp0 =>
                  if (code resp0 =? 304)%Z then
                    match Cache.lookup api_url (cache s0) with
                    | None => raise TypeError
                    | Some c =>
                        (emit (EvLog Info);;
                         GitHubRepoProvider.set_resolved_ref (Cache.sha c);;
                         cache_move_to_end api_url;;
                         ret (Cache.sha c))%monad
                    end st
                  else
                    ((match Cache.lookup api_url (cache s0) with
                      | Some _ => emit (EvLog Debug)
                      | None => ret tt
                      end);;
                     ref_info <- lift (json_body resp0);;
                     has_sha <- lift (contains ref_info "sha");;
                     if negb has_sha then
                       emit (EvLog Warning);;
                       GitHubRepoProvider.set_resolved_ref VNone;;
                       ret VNone
                     else
                       sha <- lift (subscript ref_info "sha");;
                       GitHubRepoProvider.set_resolved_ref sha;;
                       cache_set api_url (Cache.mkEntry (headers resp0 !! "ETag") sha);;
                       ret sha)%monad st
              | None => ret VNone st
              end)) as Hquiet.
    { destruct resp as [resp0|]; [|apply quiet_ret].
      destruct (code resp0 =? 304)%Z.
      - destruct (Cache.lookup api_url (cache s0)); repeat quiet_step.
      - apply quiet_bind; [destruct (Cache.lookup api_url (cache s0)); quiet_step|].
        intros _. apply quiet_bind; [quiet_step|]. intros ref_info.
        apply quiet_bind; [quiet_step|]. intros has_sha.
        destruct (negb has_sha); repeat quiet_step. }
    assert (exists tr', trace s' = (trace s4 ++ tr')%list
                        /\ Forall (fun ev => ~ is_fetch ev) tr') as (tr' & Ht' & Hn').
    { apply (Hquiet s4 r s'). destruct resp as [resp0|]; [|exact H].
      destruct (code resp0 =? 304)%Z; [|exact H].
      destruct (Cache.lookup api_url (cache s0)); exact H. }
    exists before, (tr ++ tr')%list. split; [|split; [done|by apply Forall_app]].
    rewrite Ht', Ht4. rewrite <- !app_assoc. reflexivity.
Qed.

Lemma github_resolution_fetches_once_witness :
  let run :=
    GitHubRepoProvider.get_resolved_ref sample_url_concat (answer not_modified) 1000
      (start sample_github sample_cache) in
  exists before after,
    trace run.2
    = ([] ++ before
          ++ EvFetch (GitHubRepoProvider.request sample_url_concat [] sample_api_url
                        (Some "W/etag-1")) :: after)%list
    /\ Forall (fun ev => ~ is_fetch ev) before
    /\ Forall (fun ev => ~ is_fetch ev) after.
Proof.
  intros run.
  apply (proj2 (github_resolution_fetches_once sample_url_concat (answer not_modified) 1000
                  (start sample_github sample_cache) run.1 run.2 (surjective_pairing run))).
  reflexivity.
Defined.

(** X25. A 304 for an API URL that has no cache entry, with readable
    rate-limit headers, makes the GitHub resolution raise [TypeError]:
    there is no cached sha to return, and neither the instance nor any
    lookup of the cache changes. *)
Theorem github_not_modified_without_entry :
  forall url_concat fetch (now : Q) (s : State GitHubRepoProvider.t) resp
         remaining rate_limit reset_timestamp,
    let p := self s in
    let api_url := GitHubRepoProvider.api_url p in
    GitHubRepoProvider.resolved_ref p = None ->
    Cache.lookup api_url (cache s) = None ->
    fetch (GitHubRepoProvider.request url_concat (GitHubRepoProvider.auth p) api_url None)
    = Raise (HTTPError 304 (Some resp)) ->
    code resp = 304%Z ->
    reads_rate_limit now (headers resp) remaining rate_limit reset_timestamp ->
    let run := GitHubRepoProvider.get_resolved_ref url_concat fetch now s in
    run.1 = Raise TypeError /\ self run.2 = p /\ cache run.2 = cache s.
Proof.
  intros url_concat fetch now s resp remaining rate_limit reset_timestamp p api_url
    Hmemo Hc Hf Hcode Hr run. subst run p api_url.
  github_to_request s Hmemo. rewrite Hc.
  match goal with |- context [bind _ _ ?s1] =>
    rewrite (bind_Return _ _ s1 None s1) by reflexivity
  end.
  match goal with |- context [bind _ _ ?s1] =>
    run (github_api_request_not_modified url_concat fetch now _ _ _ _ _ _ _ s1 Hf Hr)
  end.
  rewrite Hcode. simpl (304 =? 304)%Z. cbv iota.
  unfold raise, add_trace. cbn [fst snd self cache].
  split; [done|]. split; [done|]. unfold Cache.move_to_end. by rewrite Hc.
Qed.

Lemma github_not_modified_without_entry_witness :
  (GitHubRepoProvider.get_resolved_ref sample_url_concat (answer not_modified) 1000
     (start sample_github (Cache.create 1024))).1
  = Raise TypeError.
Proof.
  apply (github_not_modified_without_entry sample_url_concat (answer not_modified) 1000
           (start sample_github (Cache.create 1024))
           (mkResponse 304 (rate_limit_headers "59" "60" "1130") None) 59 60 1130
           eq_refl eq_refl eq_refl eq_refl sample_reads_rate_limit).
Defined.

(** ** Credentials *)

(** X26. The [auth] parameters of a GitHub provider are the credentials
    that are set, each under its name and none of them empty; they are
    empty exactly when no credential is set, and the request then goes to
    the API URL as it is. The git credentials are empty exactly when there
    is no token, for GitHub the access token and for GitLab the private
    token. *)
Theorem credentials_only_when_set :
  (forall client_id client_secret access_token key value,
     In (key, value)
        (GitHubRepoProvider.default_auth client_id client_secret access_token)
     <-> value <> ""
         /\ ((key = "client_id" /\ value = client_id)
             \/ (key = "client_secret" /\ value = client_secret)
             \/ (key = "access_token" /\ value = access_token)))
  /\ (forall client_id client_secret access_token,
        GitHubRepoProvider.default_auth client_id client_secret access_token = []
        <-> client_id = "" /\ client_secret = "" /\ access_token = "")
  /\ (forall url_concat api_url etag,
        url (GitHubRepoProvider.request url_concat
               (GitHubRepoProvider.default_auth "" "" "") api_url etag) = api_url)
  /\ (forall client_id access_token,
        GitHubRepoProvider.default_git_credentials client_id access_token = ""
        <-> access_token = "")
  /\ (forall private_token,
        GitLabRepoProvider.default_git_credentials private_token = ""
        <-> private_token = "").
Proof.
  split; [|split; [|split; [|split]]].
  - intros client_id client_secret access_token key value.
    unfold GitHubRepoProvider.default_auth. rewrite List.filter_In. simpl.
    rewrite negb_true_iff, String.eqb_neq. split.
    + intros [[H|[H|[H|[]]]] Hne]; injection H as <- <-; tauto.
    + intros [Hne [[-> ->]|[[-> ->]|[-> ->]]]]; tauto.
  - intros client_id client_secret access_token.
    unfold GitHubRepoProvider.default_auth. simpl. split.
    + destruct client_id, client_secret, access_token; simpl; done.
    + by intros (-> & -> & ->).
  - done.
  - intros client_id access_token. unfold GitHubRepoProvider.default_git_credentials.
    destruct access_token; [done|]. by destruct client_id.
  - intros private_token. unfold GitLabRepoProvider.default_git_credentials.
    by destruct private_token.
Qed.
